(** * Coffee Roasting Dashboard: the roast session of [app.py]

    [app.py] is a Streamlit script: every operator action re-runs it from
    top to bottom over the values kept in [st.session_state].  The script is
    embedded as a function from one run's widget values and clock readings to
    the next session state; the button handlers, the live temperature lookup
    and the statistics block are the functions it is composed of.

    Conventions.
    - A [datetime] is a number of microseconds ([Z]); a [timedelta] is the
      difference of two of them.
    - A Python float is the rational it stands for ([Q]), and arithmetic on
      floats is exact; where a float is printed, the digits are those of the
      nearest double ([Py.binary64]).
    - A pandas DataFrame is the list of its rows.
    - A raised exception is the left summand of [result].
    - Of what a run draws (charts, tables, metrics, tips) only the values of
      the statistics block are kept. *)

From Stdlib Require Import ZArith QArith Qround Qabs List String Bool Lia Lqa.
From Stdlib Require Import DecimalString.
Import ListNotations.

(** ** Python values *)

Module Py.

(** The exceptions the modelled lines can raise. *)
Inductive exn : Type :=
| TypeError
| IndexError
| InvalidParameter (parameter why : string).

Definition result (A : Type) : Type := (exn + A)%type.

Definition ret {A : Type} (a : A) : result A := inr a.
Definition raise {A : Type} (e : exn) : result A := inl e.

Definition bind {A B : Type} (m : result A) (k : A -> result B) : result B :=
  match m with
  | inl e => inl e
  | inr a => k a
  end.

(** [int(x)] on a float: truncation towards zero. *)
Definition int (x : Q) : Z := Z.quot (Qnum x) (Zpos (Qden x)).

(** [timedelta.total_seconds() / 60] for a difference of [us] microseconds. *)
Definition total_minutes (us : Z) : Q := (us # 60000000)%Q.

(** [x < y] on floats. *)
Definition Qlt_bool (x y : Q) : bool := negb (Qle_bool y x).

(** [str(n)] for an integer. *)
Definition str (n : Z) : string := NilZero.string_of_int (Z.to_int n).

(** Round to the nearest integer, ties to the even one. *)
Definition round_half_even (x : Q) : Z :=
  let f := Qfloor x in
  match ((x - inject_Z f) ?= (1 # 2))%Q with
  | Lt => f
  | Gt => (f + 1)%Z
  | Eq => if Z.even f then f else (f + 1)%Z
  end.

(** [2 ** e] for an integer exponent of either sign. *)
Definition pow2 (e : Z) : Q :=
  if (0 <=? e)%Z then inject_Z (2 ^ e) else (1 # Z.to_pos (2 ^ (- e)))%Q.

(** The double that stands for the real number [x]: the binary64 number
    nearest to [x], with a 53-bit significand and ties going to the even
    significand.  Overflow and subnormal numbers are left out: the
    durations and temperatures of the script are far from both. *)
Definition binary64 (x : Q) : Q :=
  if Qeq_bool x 0 then 0%Q
  else
    let a := Qabs x in
    let k := (Z.log2 (Qnum a) - Z.log2 (Zpos (Qden a)))%Z in
    let exponent := if Qle_bool (pow2 k) a then k else (k - 1)%Z in
    let e := (exponent - 52)%Z in
    let significand := round_half_even (a / pow2 e)%Q in
    let magnitude := (inject_Z significand * pow2 e)%Q in
    Qred (if Qlt_bool x 0%Q then (- magnitude)%Q else magnitude).

(** [f"{x:.1f}"].  What is printed is the double of [x], correctly
    rounded to one digit after the point: [0.05] is the double just above
    1/20 and prints as [0.1], [0.35] the double just below 7/20 and prints
    as [0.3]; a double exactly halfway, such as [0.25], goes to the even
    digit.  A negative value that rounds to zero keeps its sign, as Python
    prints it. *)
Definition format_1f (x : Q) : string :=
  let d := binary64 x in
  let tenths := round_half_even (Qabs d * 10)%Q in
  ((if Qlt_bool d 0%Q then "-" else "")
     ++ str (tenths / 10)%Z ++ "." ++ str (tenths mod 10)%Z)%string.

End Py.

Notation "x <- m ;; k" := (Py.bind m (fun x => k))
  (at level 61, m at next level, right associativity).

(** ** pandas *)

Module Pandas.

(** [df.iloc[i]]: positions [-len .. len-1] are valid, a negative one
    counts from the end; anything else raises [IndexError]. *)
Definition iloc {A : Type} (df : list A) (i : Z) : Py.result A :=
  let n := Z.of_nat (List.length df) in
  let pos := if (i <? 0)%Z then (n + i)%Z else i in
  if ((0 <=? pos) && (pos <? n))%Z%bool then
    match nth_error df (Z.to_nat pos) with
    | Some row => Py.ret row
    | None => Py.raise Py.IndexError
    end
  else Py.raise Py.IndexError.

(** [df.empty]. *)
Definition empty {A : Type} (df : list A) : bool :=
  match df with
  | [] => true
  | _ :: _ => false
  end.

(** [series.max()] over floats; [None] stands for the [nan] of an empty
    series. *)
Fixpoint max (series : list Q) : option Q :=
  match series with
  | [] => None
  | x :: rest =>
      match max rest with
      | None => Some x
      | Some m => Some (if Qle_bool x m then m else x)
      end
  end.

End Pandas.

(** ** The event log ([utils/event_handler.py]) *)

Module EventHandler.

(** A row of [get_events_df()]: the columns the script reads. *)
Record event : Type := {
  timestamp : Z;
  event_type : string;
  details : string
}.

(** Modelled from the spec: [EventHandler.add_event] is imported from
    [utils/event_handler.py], which is not part of the sources.  Section 4.2:
    the append always succeeds, assigns the timestamp (the clock reading
    [now]) and appends to the end. *)
Definition add_event (now : Z) (kind text : string) (log : list event)
  : list event :=
  log ++ [{| timestamp := now; event_type := kind; details := text |}].

(** Modelled from the spec: [EventHandler.clear_events], same missing file.
    Section 4.2: discards all events, no error condition. *)
Definition clear_events (log : list event) : list event := [].

(** Modelled from the spec: [EventHandler.get_events_df], same missing
    file: the log in append order. *)
Definition get_events_df (log : list event) : list event := log.

Definition is_kind (kind : string) (e : event) : bool :=
  String.eqb (event_type e) kind.

End EventHandler.

(** ** Roast profiles ([utils/profile_generator.py]) *)

Module Profile.

Inductive roast_level : Type := Light | Medium | Dark | French | Italian.

(** The label of a level, as the select slider lists it. *)
Definition level_name (l : roast_level) : string :=
  match l with
  | Light => "Light"
  | Medium => "Medium"
  | Dark => "Dark"
  | French => "French"
  | Italian => "Italian"
  end.

(** Position of a level on the slider: a larger rank is a darker roast. *)
Definition rank (l : roast_level) : nat :=
  match l with
  | Light => 0
  | Medium => 1
  | Dark => 2
  | French => 3
  | Italian => 4
  end.

(** A row of the profile table.  The script reads the ['Temperature']
    column by position; the elapsed-minute column is the one of the spec's
    data model. *)
Record row : Type := {
  elapsed_minutes : Q;
  Temperature : Q
}.

Record RoastProfile : Type := {
  samples : list row;
  charge_temperature : Q;
  target_roast_level : roast_level;
  bean_type : string;
  development_time_pct : Q
}.

(** The last row of a table, if any. *)
Definition final (rows : list row) : option row :=
  nth_error rows (List.length rows - 1).

(** [generate_roast_profile] is imported from [utils/profile_generator.py],
    which is not part of the sources; the generator below follows
    section 4.1 of the specification.  That section fixes the input ranges,
    the error, the sampling step and the shape class of the curve, not its
    values: the end temperature and the duration per roast level and the
    normalised heating ramp are parameters. *)
Section Generator.

Variable end_temperature : roast_level -> Q.
Variable duration_steps : roast_level -> nat.
Variable ramp : Q -> Q.

(** Modelled from the spec: the sampling grid of the missing generator,
    every 0.5 minute; elapsed minutes of the [i]-th sample. *)
Definition sample_time (i : nat) : Q := Z.of_nat i # 2.

(** Modelled from the spec: the start of the development phase of the
    missing generator, the final [pct] percent of the total duration
    ([duration_steps] counts half-minute steps). *)
Definition development_start (level : roast_level) (pct : Q) : Q :=
  (sample_time (duration_steps level) * ((100 - pct) / 100))%Q.

(** Modelled from the spec: the curve of the missing generator, heating
    from the charge temperature towards the end temperature along the
    ramp, then held at the end temperature through the development
    phase. *)
Definition temperature_at (level : roast_level) (charge pct t : Q) : Q :=
  let t_dev := development_start level pct in
  if Qle_bool t_dev t then end_temperature level
  else (charge + (end_temperature level - charge) * ramp (t / t_dev))%Q.

(** Modelled from the spec: the samples of the missing generator, one at
    every step of the grid from zero to the total duration. *)
Definition synthesize (level : roast_level) (charge pct : Q) : list row :=
  map (fun i =>
         {| elapsed_minutes := sample_time i;
            Temperature := temperature_at level charge pct (sample_time i) |})
      (seq 0 (S (duration_steps level))).

(** Modelled from the spec: the input ranges of the missing generator,
    150-250 degrees Celsius and the open interval (0, 100). *)
Definition charge_temp_in_range (charge : Q) : bool :=
  Qle_bool 150 charge && Qle_bool charge 250.

Definition development_time_in_range (pct : Q) : bool :=
  Py.Qlt_bool 0 pct && Py.Qlt_bool pct 100.

(** Modelled from the spec: [generate_roast_profile] of the missing
    [utils/profile_generator.py].  Out-of-range inputs fail with
    [InvalidParameter] naming the parameter and the reason, nothing is
    clamped; valid inputs give the synthesized samples with the
    parameters kept for provenance; the bean type is provenance only. *)
Definition generate (bean : string) (level : roast_level) (charge pct : Q)
  : Py.result RoastProfile :=
  if negb (charge_temp_in_range charge) then
    Py.raise (Py.InvalidParameter "charge_temp"
                "must lie between 150 and 250 degrees Celsius")
  else if negb (development_time_in_range pct) then
    Py.raise (Py.InvalidParameter "development_time_pct"
                "must lie strictly between 0 and 100")
  else
    Py.ret {| samples := synthesize level charge pct;
              charge_temperature := charge;
              target_roast_level := level;
              bean_type := bean;
              development_time_pct := pct |}.

End Generator.

(** A ramp and tables to run the generator on: a concave quadratic ramp,
    end temperatures in degrees Celsius, durations in half-minute steps. *)
Definition quadratic_ramp (x : Q) : Q := (x * (2 - x))%Q.

Definition example_end_temperature (l : roast_level) : Q :=
  match l with
  | Light => 205
  | Medium => 215
  | Dark => 225
  | French => 235
  | Italian => 245
  end.

Definition example_duration_steps (l : roast_level) : nat :=
  match l with
  | Light => 20
  | Medium => 24
  | Dark => 28
  | French => 30
  | Italian => 32
  end.

(** The last row of what a call of the generator returned. *)
Definition end_of (generated : Py.result RoastProfile) : option row :=
  match generated with
  | inr profile => final (samples profile)
  | inl _ => None
  end.

End Profile.

(** ** The script *)

Module App.

(** A row of [st.session_state.roast_data]. *)
Record data_row : Type := {
  Time : Q;
  Temperature : Q;
  Event : string
}.

(** What survives from one run of the script to the next: the four entries
    of [st.session_state] and the log behind [event_handler]. *)
Record state : Type := {
  roast_data : list data_row;
  roast_in_progress : bool;
  start_time : option Z;
  roast_profile : option Profile.RoastProfile;
  events : list EventHandler.event
}.

(** Lines 30-37: the session as the first run finds it. *)
Definition initial : state :=
  {| roast_data := [];
     roast_in_progress := false;
     start_time := None;
     roast_profile := None;
     events := [] |}.

(** The widget values of one run: sidebar selections and, for each button,
    whether the operator pressed it. *)
Record widgets : Type := {
  bean_type : string;
  origin : string;
  batch_size : Z;
  roast_level : Profile.roast_level;
  charge_temp : Z;
  development_time : Z;
  generate_profile_pressed : bool;
  start_roast_pressed : bool;
  add_event_pressed : bool;
  event_type : string;
  event_note : string;
  confirm_event_pressed : bool;
  end_roast_pressed : bool;
  clear_events_pressed : bool
}.

(** The readings of [datetime.now()] during one run, one per call site, in
    program order. *)
Record clock : Type := {
  now_profile_event : Z;
  now_start : Z;
  now_start_event : Z;
  now_operator_event : Z;
  now_end : Z;
  now_end_event : Z;
  now_monitor : Z
}.

(** [st.button(label, disabled=d)]: a disabled button refuses the press and
    its handler does not run. *)
Definition button {A : Type} (disabled : bool) (handler : A) : option A :=
  if disabled then None else Some handler.

Definition set_events (log : list EventHandler.event) (s : state) : state :=
  {| roast_data := roast_data s;
     roast_in_progress := roast_in_progress s;
     start_time := start_time s;
     roast_profile := roast_profile s;
     events := log |}.

Section Script.

(** [generate_roast_profile], imported from [utils/profile_generator.py]. *)
Variable generate_roast_profile :
  string -> Profile.roast_level -> Q -> Q -> Py.result Profile.RoastProfile.

(** Lines 65-69. *)
Definition generate_profile (w : widgets) (now : Z) (s : state)
  : Py.result state :=
  profile <- generate_roast_profile (bean_type w) (roast_level w)
               (inject_Z (charge_temp w)) (inject_Z (development_time w)) ;;
  Py.ret
    {| roast_data := roast_data s;
       roast_in_progress := roast_in_progress s;
       start_time := start_time s;
       roast_profile := Some profile;
       events :=
         EventHandler.add_event now "Profile Generated"
           (bean_type w ++ " " ++ Profile.level_name (roast_level w)
              ++ " profile created")%string
           (events s) |}.

(** Line 88: when the Start Roast button is disabled. *)
Definition start_disabled (s : state) : bool :=
  roast_in_progress s
  || match roast_profile s with None => true | Some _ => false end.

(** Lines 89-91. *)
Definition start_roast (w : widgets) (now now_event : Z) (s : state) : state :=
  {| roast_data := roast_data s;
     roast_in_progress := true;
     start_time := Some now;
     roast_profile := roast_profile s;
     events :=
       EventHandler.add_event now_event "Roast Started"
         ("Batch: " ++ Py.str (batch_size w) ++ "g " ++ bean_type w
            ++ " from " ++ origin w)%string
         (events s) |}.

(** Lines 88-91: pressing Start Roast. *)
Definition press_start (w : widgets) (now now_event : Z) (s : state)
  : option state :=
  button (start_disabled s) (start_roast w now now_event s).

(** Lines 94 and 101: Add Event and End Roast are disabled unless a roast
    is in progress. *)
Definition not_in_progress (s : state) : bool := negb (roast_in_progress s).

(** Lines 95-98: the event is added when the nested Confirm Event button
    is pressed in the same run. *)
Definition add_operator_event (w : widgets) (now : Z) (s : state) : state :=
  if confirm_event_pressed w then
    set_events (EventHandler.add_event now (event_type w) (event_note w)
                  (events s)) s
  else s.

Definition press_add_event (w : widgets) (now : Z) (s : state)
  : option state :=
  button (not_in_progress s) (add_operator_event w now s).

(** Lines 102-104.  Subtracting [None] from a [datetime] raises
    [TypeError]. *)
Definition end_roast (now now_event : Z) (s : state) : Py.result state :=
  match start_time s with
  | None => Py.raise Py.TypeError
  | Some started =>
      let duration := (now - started)%Z in
      Py.ret
        {| roast_data := roast_data s;
           roast_in_progress := false;
           start_time := start_time s;
           roast_profile := roast_profile s;
           events :=
             EventHandler.add_event now_event "Roast Completed"
               ("Duration: " ++ Py.format_1f (Py.total_minutes duration)
                  ++ " minutes")%string
               (events s) |}
  end.

(** Lines 101-104: pressing End Roast. *)
Definition press_end (now now_event : Z) (s : state)
  : option (Py.result state) :=
  button (not_in_progress s) (end_roast now now_event s).

(** Lines 112-114: the expected temperature [current_time] minutes into
    the roast. *)
Definition lookup_index (profile : list Profile.row) (current_time : Q) : Z :=
  Z.min (Py.int (current_time * 2)) (Z.of_nat (List.length profile) - 1).

Definition current_temp (profile : list Profile.row) (current_time : Q)
  : Py.result Q :=
  r <- Pandas.iloc profile (lookup_index profile current_time) ;;
  Py.ret (Profile.Temperature r).

(** Lines 106-125: while a roast is in progress every run reads the
    expected temperature and appends it to the live trace. *)
Definition monitor (now : Z) (s : state) : Py.result state :=
  if roast_in_progress s then
    match roast_profile s with
    | None => Py.ret s
    | Some profile =>
        match start_time s with
        | None => Py.raise Py.TypeError
        | Some started =>
            let current_time := Py.total_minutes (now - started) in
            temp <- current_temp (Profile.samples profile) current_time ;;
            Py.ret
              {| roast_data :=
                   roast_data s
                     ++ [{| Time := current_time;
                            Temperature := temp;
                            Event := "" |}];
                 roast_in_progress := roast_in_progress s;
                 start_time := start_time s;
                 roast_profile := roast_profile s;
                 events := events s |}
        end
    end
  else Py.ret s.

(** Lines 131-146: the Clear Events button is only drawn under a
    non-empty log. *)
Definition clear_events (w : widgets) (s : state) : state :=
  if negb (Pandas.empty (EventHandler.get_events_df (events s)))
     && clear_events_pressed w
  then set_events (EventHandler.clear_events (events s)) s
  else s.

(** Lines 153-160.  ["N/A"] is [None]; [pd.to_datetime(None)] is [None],
    and subtracting it raises [TypeError]. *)
Definition time_to_first_crack (events_df : list EventHandler.event)
    (started : option Z) : Py.result (option Q) :=
  if negb (Pandas.empty events_df)
     && existsb (EventHandler.is_kind "First Crack") events_df
  then
    first_crack_time <-
      Pandas.iloc
        (map EventHandler.timestamp
           (filter (EventHandler.is_kind "First Crack") events_df)) 0 ;;
    match started with
    | None => Py.raise Py.TypeError
    | Some t0 => Py.ret (Some (Py.total_minutes (first_crack_time - t0)))
    end
  else Py.ret None.

(** The three values of the Roast Statistics block; [max_temp] is [None]
    for the [nan] of an empty column. *)
Record statistics : Type := {
  latest_temp : Q;
  max_temp : option Q;
  first_crack : option Q
}.

(** Lines 150-165: [None] when the block draws nothing. *)
Definition roast_statistics (s : state)
    (events_df : list EventHandler.event) : Py.result (option statistics) :=
  if negb (Pandas.empty (roast_data s)) then
    latest <- Pandas.iloc (map Temperature (roast_data s)) (-1) ;;
    crack <- time_to_first_crack events_df (start_time s) ;;
    Py.ret (Some {| latest_temp := latest;
                    max_temp := Pandas.max (map Temperature (roast_data s));
                    first_crack := crack |})
  else Py.ret None.

(** One run of the script: the new session and what the statistics block
    shows. *)
Definition run (w : widgets) (c : clock) (s : state)
  : Py.result (state * option statistics) :=
  s1 <- (if generate_profile_pressed w
         then generate_profile w (now_profile_event c) s
         else Py.ret s) ;;
  let s2 :=
    if start_roast_pressed w then
      match press_start w (now_start c) (now_start_event c) s1 with
      | Some s' => s'
      | None => s1
      end
    else s1 in
  let s3 :=
    if add_event_pressed w then
      match press_add_event w (now_operator_event c) s2 with
      | Some s' => s'
      | None => s2
      end
    else s2 in
  s4 <- (if end_roast_pressed w then
           match press_end (now_end c) (now_end_event c) s3 with
           | Some r => r
           | None => Py.ret s3
           end
         else Py.ret s3) ;;
  s5 <- monitor (now_monitor c) s4 ;;
  let events_df := EventHandler.get_events_df (events s5) in
  let s6 := clear_events w s5 in
  shown <- roast_statistics s6 events_df ;;
  Py.ret (s6, shown).

(** The three control-panel buttons as [run] chains them: the session
    after lines 87-91, after lines 93-98 and after lines 100-104. *)
Definition start_stage (w : widgets) (c : clock) (s : state) : state :=
  if start_roast_pressed w then
    match press_start w (now_start c) (now_start_event c) s with
    | Some s' => s'
    | None => s
    end
  else s.

Definition add_event_stage (w : widgets) (c : clock) (s : state) : state :=
  if add_event_pressed w then
    match press_add_event w (now_operator_event c) s with
    | Some s' => s'
    | None => s
    end
  else s.

Definition end_stage (w : widgets) (c : clock) (s : state)
  : Py.result state :=
  if end_roast_pressed w then
    match press_end (now_end c) (now_end_event c) s with
    | Some r => r
    | None => Py.ret s
    end
  else Py.ret s.

(** Lines 169-190: the tip drawn under Roast Recommendations, chosen by
    the label of the level the slider shows; nothing is drawn without a
    profile. *)
Inductive tips : Type := LightRoastTips | MediumRoastTips | DarkRoastTips.

Definition recommendation (w : widgets) (s : state) : option tips :=
  match roast_profile s with
  | None => None
  | Some _ =>
      let level := Profile.level_name (roast_level w) in
      if String.eqb level "Light" then Some LightRoastTips
      else if String.eqb level "Medium" then Some MediumRoastTips
      else if existsb (String.eqb level) ["Dark"; "French"; "Italian"]%string
           then Some DarkRoastTips
           else None
  end.

End Script.

(** *** The session life cycle of the specification

    The script keeps a flag and a start time; the three states of the
    specification are read off them: a session that is not in progress is
    [Idle] until it has a start time and [Completed] once it has one. *)
Inductive lifecycle : Type := Idle | InProgress | Completed.

Definition lifecycle_of (s : state) : lifecycle :=
  if roast_in_progress s then InProgress
  else match start_time s with
       | None => Idle
       | Some _ => Completed
       end.

(** *** The lookup the specification describes

    [nearest_sample t rows]: among the rows whose elapsed minutes are at
    most [t], the one nearest to [t]. *)
Fixpoint nearest_sample (t : Q) (rows : list Profile.row)
  : option Profile.row :=
  match rows with
  | [] => None
  | r :: rest =>
      let candidate := Qle_bool (Profile.elapsed_minutes r) t in
      match nearest_sample t rest with
      | None => if candidate then Some r else None
      | Some best =>
          if candidate
             && Py.Qlt_bool (Profile.elapsed_minutes best)
                  (Profile.elapsed_minutes r)
          then Some r
          else Some best
      end
  end.

(** The table is sampled every half minute from zero: row [i] is at
    [i / 2] minutes. *)
Definition half_minute_grid (rows : list Profile.row) : Prop :=
  forall i r, nth_error rows i = Some r ->
              (Profile.elapsed_minutes r == Z.of_nat i # 2)%Q.

(** What every run keeps true of the session: a roast in progress has a
    start time and a profile, and so has a session with a live trace. *)
Definition consistent (s : state) : Prop :=
  (roast_in_progress s = true ->
   start_time s <> None /\ roast_profile s <> None)
  /\ (roast_data s <> [] -> start_time s <> None).

End App.

(** ** Sessions and tables to evaluate the script on *)

Module Examples.

Definition table (rows : list (Q * Q)) : list Profile.row :=
  map (fun r => {| Profile.elapsed_minutes := fst r;
                   Profile.Temperature := snd r |}) rows.

(** Sampled every half minute. *)
Definition half_minute_table : list Profile.row :=
  table [(0, 190); (1 # 2, 200); (1, 205)]%Q.

(** Sampled every minute. *)
Definition one_minute_table : list Profile.row :=
  table [(0, 100); (1, 150); (2, 200)]%Q.

(** Sampled every quarter of a minute. *)
Definition quarter_minute_table : list Profile.row :=
  table [(0, 100); (1 # 4, 110); (1 # 2, 120); (3 # 4, 130)]%Q.

Definition profile_of (rows : list Profile.row) : Profile.RoastProfile :=
  {| Profile.samples := rows;
     Profile.charge_temperature := 190;
     Profile.target_roast_level := Profile.Medium;
     Profile.bean_type := "Arabica";
     Profile.development_time_pct := 20 |}.

Definition generator :=
  Profile.generate Profile.example_end_temperature
    Profile.example_duration_steps Profile.quadratic_ramp.

(** The samples the generator gives at the sidebar's default values: 25
    rows, from 0 to 12 minutes. *)
Definition generated_rows : list Profile.row :=
  Profile.synthesize Profile.example_end_temperature
    Profile.example_duration_steps Profile.quadratic_ramp
    Profile.Medium 190 20.

(** The sidebar at its default values, with the Generate, Start Roast and
    End Roast buttons pressed or not. *)
Definition press (generate start finish : bool) : App.widgets :=
  {| App.bean_type := "Arabica";
     App.origin := "Colombia";
     App.batch_size := 250;
     App.roast_level := Profile.Medium;
     App.charge_temp := 190;
     App.development_time := 20;
     App.generate_profile_pressed := generate;
     App.start_roast_pressed := start;
     App.add_event_pressed := false;
     App.event_type := "First Crack";
     App.event_note := "";
     App.confirm_event_pressed := false;
     App.end_roast_pressed := finish;
     App.clear_events_pressed := false |}.

Definition idle_widgets : App.widgets := press false false false.

(** Only the Clear Events button pressed. *)
Definition clear_pressed : App.widgets :=
  {| App.bean_type := "Arabica";
     App.origin := "Colombia";
     App.batch_size := 250;
     App.roast_level := Profile.Medium;
     App.charge_temp := 190;
     App.development_time := 20;
     App.generate_profile_pressed := false;
     App.start_roast_pressed := false;
     App.add_event_pressed := false;
     App.event_type := "First Crack";
     App.event_note := "";
     App.confirm_event_pressed := false;
     App.end_roast_pressed := false;
     App.clear_events_pressed := true |}.

Definition minute : Z := 60000000.

(** A session with a profile and no roast yet. *)
Definition ready : App.state :=
  {| App.roast_data := [];
     App.roast_in_progress := false;
     App.start_time := None;
     App.roast_profile := Some (profile_of half_minute_table);
     App.events := [] |}.

(** The same session, started at time zero ... *)
Definition roasting : App.state :=
  App.start_roast idle_widgets 0 0 ready.

(** ... with a first crack noted after eight minutes. *)
Definition cracked : App.state :=
  App.set_events
    (EventHandler.add_event (8 * minute) "First Crack" "" (App.events roasting))
    roasting.

(** Runs of the whole script, one after the other. *)
Fixpoint replay (inputs : list (App.widgets * App.clock)) (s : App.state)
  : Py.result App.state :=
  match inputs with
  | [] => Py.ret s
  | (w, c) :: rest =>
      out <- App.run generator w c s ;;
      replay rest (fst out)
  end.

(** A run in which every reading of the clock is [t]. *)
Definition at_time (t : Z) : App.clock :=
  {| App.now_profile_event := t;
     App.now_start := t;
     App.now_start_event := t;
     App.now_operator_event := t;
     App.now_end := t;
     App.now_end_event := t;
     App.now_monitor := t |}.

(** Generate a profile, start the roast a minute later, end it after ten
    minutes. *)
Definition one_roast : list (App.widgets * App.clock) :=
  [ (press true false false, at_time 0);
    (press false true false, at_time minute);
    (press false false true, at_time (11 * minute)) ].

Definition after_one_roast : App.state :=
  match replay one_roast App.initial with
  | inr s => s
  | inl _ => App.initial
  end.

End Examples.

(** * Properties *)

(** ** Arithmetic of the Python values *)

Lemma Qlt_bool_iff (x y : Q) : Py.Qlt_bool x y = true <-> (x < y)%Q.
Proof.
  unfold Py.Qlt_bool. rewrite negb_true_iff. split.
  - intros H. apply Qnot_le_lt. intros Hle.
    apply Qle_bool_iff in Hle. congruence.
  - intros H. destruct (Qle_bool y x) eqn:E; [|reflexivity].
    apply Qle_bool_iff in E. exfalso. exact (Qlt_not_le _ _ H E).
Qed.

Lemma Qle_bool_false_iff (x y : Q) : Qle_bool x y = false <-> (y < x)%Q.
Proof.
  rewrite <- Qlt_bool_iff. unfold Py.Qlt_bool.
  destruct (Qle_bool x y); simpl; intuition congruence.
Qed.

Example int_truncates :
  Py.int (24 # 10) = 2%Z /\ Py.int (-24 # 10) = (-2)%Z /\ Py.int (-4 # 10) = 0%Z.
Proof. repeat split. Qed.

(** The double of 1/20 is just above it, the double of 7/20 just below. *)
Example binary64_nearest :
  Py.binary64 (1 # 20) = (3602879701896397 # 72057594037927936)%Q
  /\ Py.binary64 (35 # 100) = (3152519739159347 # 9007199254740992)%Q
  /\ Py.binary64 (1 # 4) = (1 # 4)%Q
  /\ Py.binary64 10 = 10%Q.
Proof. repeat split; vm_compute; reflexivity. Qed.

(** Durations of 10 min, 3 s, 603 s, 21 s, 15 s and -2.4 s as line 104
    prints them. *)
Example format_1f_rounds :
  map (fun us => Py.format_1f (Py.total_minutes us))
    [600000000; 3000000; 603000000; 21000000; 15000000; -2400000]%Z
  = ["10.0"; "0.1"; "10.1"; "0.3"; "0.2"; "-0.0"]%string.
Proof. vm_compute. reflexivity. Qed.

Example iloc_positions :
  Pandas.iloc [10; 20; 30]%Z 0 = inr 10%Z
  /\ Pandas.iloc [10; 20; 30]%Z (-1) = inr 30%Z
  /\ Pandas.iloc [10; 20; 30]%Z 3 = inl Py.IndexError
  /\ Pandas.iloc [10; 20; 30]%Z (-4) = inl Py.IndexError.
Proof. repeat split. Qed.

(** On a non-negative float [int] is the floor. *)
Lemma int_nonneg (x : Q) : (0 <= x)%Q -> Py.int x = Qfloor x.
Proof.
  destruct x as [n d]. unfold Qle, Py.int, Qfloor. simpl. intros H.
  apply Z.quot_div_nonneg; lia.
Qed.

Lemma int_nonneg_bounds (x : Q) :
  (0 <= x)%Q ->
  (0 <= Py.int x)%Z /\ (inject_Z (Py.int x) <= x)%Q
  /\ (x < inject_Z (Py.int x + 1))%Q.
Proof.
  intros H. rewrite (int_nonneg x H). split; [|split].
  - change 0%Z with (Qfloor 0). apply Qfloor_resp_le. exact H.
  - apply Qfloor_le.
  - apply Qlt_floor.
Qed.

Lemma half_steps_lt (i j : nat) : (i < j)%nat -> (Z.of_nat i # 2 < Z.of_nat j # 2)%Q.
Proof. intros H. unfold Qlt. simpl. lia. Qed.

Lemma half_steps_le (i j : nat) : (i <= j)%nat -> (Z.of_nat i # 2 <= Z.of_nat j # 2)%Q.
Proof. intros H. unfold Qle. simpl. lia. Qed.

Lemma half_step_inject (z : Z) : (z # 2 == inject_Z z * (1 # 2))%Q.
Proof. unfold Qeq, inject_Z. simpl. lia. Qed.

(** ** Positional access *)

Lemma iloc_in_range (A : Type) (df : list A) (i : Z) :
  (0 <= i < Z.of_nat (List.length df))%Z ->
  exists r, nth_error df (Z.to_nat i) = Some r /\ Pandas.iloc df i = inr r.
Proof.
  intros [Hlo Hhi]. unfold Pandas.iloc.
  destruct (i <? 0)%Z eqn:Hneg; [apply Z.ltb_lt in Hneg; lia|].
  assert (Hin : ((0 <=? i) && (i <? Z.of_nat (List.length df)))%Z%bool = true).
  { apply andb_true_iff. split; [apply Z.leb_le|apply Z.ltb_lt]; assumption. }
  rewrite Hin.
  destruct (nth_error df (Z.to_nat i)) as [r|] eqn:Hnth.
  - exists r. split; reflexivity.
  - apply nth_error_None in Hnth. lia.
Qed.

Lemma iloc_last (A : Type) (df : list A) (d : A) :
  df <> [] -> Pandas.iloc df (-1) = inr (List.last df d).
Proof.
  intros Hne. unfold Pandas.iloc.
  assert (Hlen : (0 < List.length df)%nat) by (destruct df; simpl; [congruence|lia]).
  change (-1 <? 0)%Z with true. cbv iota.
  assert (Hin : ((0 <=? Z.of_nat (List.length df) + -1)
                 && (Z.of_nat (List.length df) + -1 <? Z.of_nat (List.length df)))%Z%bool
                = true).
  { apply andb_true_iff. split; [apply Z.leb_le|apply Z.ltb_lt]; lia. }
  rewrite Hin.
  replace (Z.to_nat (Z.of_nat (List.length df) + -1)) with (List.length df - 1)%nat by lia.
  destruct (@exists_last _ df Hne) as [front [x Hx]]. subst df.
  rewrite last_last, length_app. simpl.
  rewrite nth_error_app2 by lia.
  replace (List.length front + 1 - 1 - List.length front)%nat with 0%nat by lia.
  reflexivity.
Qed.

(** ** The live temperature lookup (lines 110-114) *)

Lemma lookup_index_bounds (rows : list Profile.row) (t : Q) :
  rows <> [] -> (0 <= t)%Q ->
  (0 <= App.lookup_index rows t < Z.of_nat (List.length rows))%Z.
Proof.
  intros Hne Ht. unfold App.lookup_index.
  assert (Hlen : (0 < List.length rows)%nat) by (destruct rows; simpl; [congruence|lia]).
  assert (H2 : (0 <= t * 2)%Q) by lra.
  pose proof (int_nonneg_bounds _ H2) as [Hint _]. lia.
Qed.

(** Within the bounds of [lookup_index_bounds] the lookup reads the row at
    the index and returns its temperature. *)
Lemma current_temp_reads_index (rows : list Profile.row) (t : Q) :
  rows <> [] -> (0 <= t)%Q ->
  exists r,
    nth_error rows (Z.to_nat (App.lookup_index rows t)) = Some r
    /\ App.current_temp rows t = inr (Profile.Temperature r).
Proof.
  intros Hne Ht.
  pose proof (lookup_index_bounds rows t Hne Ht) as Hb.
  destruct (iloc_in_range _ rows _ Hb) as [r [Hnth Hiloc]].
  exists r. split; [exact Hnth|].
  unfold App.current_temp. rewrite Hiloc. reflexivity.
Qed.

(** C9.  For a non-empty profile and a non-negative elapsed time the index
    [min(int(elapsed * 2), len(profile) - 1)] is a position of the profile:
    the lookup of the current temperature returns the temperature stored
    there and raises no [IndexError]. *)
Theorem lookup_index_valid (rows : list Profile.row) (t : Q) :
  rows <> [] -> (0 <= t)%Q ->
  (0 <= App.lookup_index rows t < Z.of_nat (List.length rows))%Z
  /\ exists r,
      nth_error rows (Z.to_nat (App.lookup_index rows t)) = Some r
      /\ App.current_temp rows t = inr (Profile.Temperature r).
Proof.
  intros Hne Ht. split.
  - apply lookup_index_bounds; assumption.
  - apply current_temp_reads_index; assumption.
Qed.

Lemma lookup_index_valid_witness :
  (0 <= App.lookup_index Examples.half_minute_table 3
   < Z.of_nat (List.length Examples.half_minute_table))%Z
  /\ exists r,
      nth_error Examples.half_minute_table
        (Z.to_nat (App.lookup_index Examples.half_minute_table 3)) = Some r
      /\ App.current_temp Examples.half_minute_table 3
         = inr (Profile.Temperature r).
Proof.
  apply (lookup_index_valid Examples.half_minute_table 3).
  - discriminate.
  - unfold Qle; simpl; lia.
Defined.

(** ** The lookup of the specification *)

Lemma nearest_sample_none (t : Q) (rows : list Profile.row) :
  (forall r, In r rows -> (t < Profile.elapsed_minutes r)%Q) ->
  App.nearest_sample t rows = None.
Proof.
  induction rows as [|r rest IH]; intros Hall; simpl; [reflexivity|].
  rewrite IH by (intros x Hx; apply Hall; right; exact Hx).
  assert (E : Qle_bool (Profile.elapsed_minutes r) t = false).
  { apply Qle_bool_false_iff. apply Hall. left. reflexivity. }
  rewrite E. reflexivity.
Qed.

(** What [nearest_sample] returns is a row at or before [t] that no other
    such row is nearer to [t] than. *)
Lemma nearest_sample_sound (t : Q) (rows : list Profile.row) (r : Profile.row) :
  App.nearest_sample t rows = Some r ->
  In r rows
  /\ (Profile.elapsed_minutes r <= t)%Q
  /\ forall r', In r' rows -> (Profile.elapsed_minutes r' <= t)%Q ->
                (Profile.elapsed_minutes r' <= Profile.elapsed_minutes r)%Q.
Proof.
  revert r. induction rows as [|x rest IH]; intros r; simpl; [discriminate|].
  destruct (App.nearest_sample t rest) as [best|] eqn:Hrest.
  - destruct (IH best eq_refl) as [Hin [Hle Hbest]].
    destruct (Qle_bool (Profile.elapsed_minutes x) t) eqn:Hx; simpl.
    + destruct (Py.Qlt_bool (Profile.elapsed_minutes best)
                  (Profile.elapsed_minutes x)) eqn:Hlt;
        intros E; injection E as <-.
      * apply Qlt_bool_iff in Hlt. apply Qle_bool_iff in Hx.
        split; [left; reflexivity|]. split; [exact Hx|].
        intros r' [<-|Hr'] Hr't; [apply Qle_refl|].
        apply Qle_trans with (Profile.elapsed_minutes best);
          [apply Hbest; assumption|apply Qlt_le_weak; exact Hlt].
      * split; [right; exact Hin|]. split; [exact Hle|].
        intros r' [<-|Hr'] Hr't; [|apply Hbest; assumption].
        apply Qnot_lt_le. intros Hc. apply Qlt_bool_iff in Hc. congruence.
    + intros E; injection E as <-.
      split; [right; exact Hin|]. split; [exact Hle|].
      intros r' [<-|Hr'] Hr't; [|apply Hbest; assumption].
      apply Qle_bool_iff in Hr't. congruence.
  - destruct (Qle_bool (Profile.elapsed_minutes x) t) eqn:Hx; [|discriminate].
    intros E; injection E as <-. apply Qle_bool_iff in Hx.
    split; [left; reflexivity|]. split; [exact Hx|].
    intros r' [<-|Hr'] Hr't; [apply Qle_refl|].
    exfalso. clear IH. revert r' Hr' Hr't Hrest.
    induction rest as [|y rest' IH']; intros r' Hr' Hr't Hrest; [destruct Hr'|].
    simpl in Hrest.
    destruct (App.nearest_sample t rest') as [z|] eqn:Hrest'.
    + destruct (Qle_bool (Profile.elapsed_minutes y) t
                && Py.Qlt_bool (Profile.elapsed_minutes z)
                     (Profile.elapsed_minutes y)); discriminate.
    + destruct (Qle_bool (Profile.elapsed_minutes y) t) eqn:Hy; [discriminate|].
      destruct Hr' as [<-|Hr'].
      * apply Qle_bool_iff in Hr't. congruence.
      * exact (IH' r' Hr' Hr't eq_refl).
Qed.

(** In a table split around a row [r] with earlier rows before it and rows
    later than [t] after it, [r] is the nearest sample at or before [t]. *)
Lemma nearest_sample_split (t : Q) (before after : list Profile.row)
    (r : Profile.row) :
  (forall b, In b before ->
             (Profile.elapsed_minutes b < Profile.elapsed_minutes r)%Q) ->
  (Profile.elapsed_minutes r <= t)%Q ->
  (forall a, In a after -> (t < Profile.elapsed_minutes a)%Q) ->
  App.nearest_sample t (before ++ r :: after) = Some r.
Proof.
  intros Hbefore Hr Hafter.
  induction before as [|b before IH]; simpl.
  - rewrite (nearest_sample_none t after Hafter).
    apply Qle_bool_iff in Hr. rewrite Hr. reflexivity.
  - rewrite IH by (intros x Hx; apply Hbefore; right; exact Hx).
    assert (E : Py.Qlt_bool (Profile.elapsed_minutes r)
                  (Profile.elapsed_minutes b) = false).
    { destruct (Py.Qlt_bool (Profile.elapsed_minutes r)
                  (Profile.elapsed_minutes b)) eqn:E; [|reflexivity].
      apply Qlt_bool_iff in E.
      exfalso. apply (Qlt_irrefl (Profile.elapsed_minutes r)).
      apply Qlt_trans with (Profile.elapsed_minutes b);
        [exact E|apply Hbefore; left; reflexivity]. }
    rewrite E, andb_false_r. reflexivity.
Qed.

Lemma final_last (rows : list Profile.row) (l : Profile.row) :
  Profile.final rows = Some l ->
  nth_error rows (List.length rows - 1) = Some l /\ rows <> [].
Proof.
  unfold Profile.final. intros H. split; [exact H|].
  intros ->. discriminate.
Qed.

(** On a half-minute grid the row the script reads is the nearest sample at
    or before the requested time. *)
Lemma lookup_is_nearest_on_grid (rows : list Profile.row) (t : Q) (r : Profile.row) :
  App.half_minute_grid rows -> (0 <= t)%Q ->
  nth_error rows (Z.to_nat (App.lookup_index rows t)) = Some r ->
  App.nearest_sample t rows = Some r.
Proof.
  intros Hgrid Ht Hnth.
  assert (Hne : rows <> []) by (intros ->; destruct (Z.to_nat _); discriminate).
  pose proof (lookup_index_bounds rows t Hne Ht) as Hb.
  assert (H2 : (0 <= t * 2)%Q) by lra.
  pose proof (int_nonneg_bounds _ H2) as [Hint [Hfloor Hceil]].
  set (k := Z.to_nat (App.lookup_index rows t)) in *.
  assert (Hk : Z.of_nat k = App.lookup_index rows t) by (unfold k; lia).
  pose proof (Hgrid k r Hnth) as Hrk.
  destruct (nth_error_split rows k Hnth) as [before [after [Hsplit Hlen]]].
  rewrite Hsplit. apply nearest_sample_split.
  - intros b Hb'. apply In_nth_error in Hb'. destruct Hb' as [i Hi].
    assert (Hik : (i < k)%nat).
    { rewrite <- Hlen. apply nth_error_Some. congruence. }
    assert (Hbi : nth_error rows i = Some b).
    { rewrite Hsplit, nth_error_app1 by lia. exact Hi. }
    rewrite (Hgrid i b Hbi), Hrk. apply half_steps_lt. exact Hik.
  - rewrite Hrk, half_step_inject.
    assert (Hle : (inject_Z (Z.of_nat k) <= inject_Z (Py.int (t * 2)))%Q).
    { rewrite <- Zle_Qle, Hk. unfold App.lookup_index. lia. }
    lra.
  - intros a Ha. apply In_nth_error in Ha. destruct Ha as [j Hj].
    assert (Haj : nth_error rows (S k + j) = Some a).
    { rewrite Hsplit, nth_error_app2 by lia.
      replace (S k + j - List.length before)%nat with (S j) by lia.
      exact Hj. }
    assert (Hjn : (S k + j < List.length rows)%nat).
    { apply nth_error_Some. congruence. }
    rewrite (Hgrid _ a Haj), half_step_inject.
    assert (Hk' : Z.of_nat k = Py.int (t * 2)).
    { unfold App.lookup_index in Hk. lia. }
    assert (Hle : (inject_Z (Py.int (t * 2) + 1) <= inject_Z (Z.of_nat (S k + j)))%Q).
    { rewrite <- Zle_Qle. lia. }
    lra.
Qed.

(** C1.  For a non-empty profile, sampled every half minute from zero as
    the data model has it, and a requested elapsed time that is not
    negative, the lookup returns the temperature of the nearest stored
    sample whose elapsed minutes are at most the requested time; beyond the
    elapsed time of the last sample that is the last sample: the lookup is
    clamped, it neither raises nor extrapolates. *)
Theorem current_temp_nearest_on_grid (rows : list Profile.row) (t : Q) :
  rows <> [] -> App.half_minute_grid rows -> (0 <= t)%Q ->
  exists r,
    App.nearest_sample t rows = Some r
    /\ App.current_temp rows t = inr (Profile.Temperature r)
    /\ forall l, Profile.final rows = Some l ->
                 (Profile.elapsed_minutes l < t)%Q -> r = l.
Proof.
  intros Hne Hgrid Ht.
  destruct (current_temp_reads_index rows t Hne Ht) as [r [Hnth Hcur]].
  exists r. split; [|split].
  - apply lookup_is_nearest_on_grid; assumption.
  - exact Hcur.
  - intros l Hl Hlt. apply final_last in Hl. destruct Hl as [Hl _].
    pose proof (Hgrid _ l Hl) as Hgl.
    assert (H2 : (0 <= t * 2)%Q) by lra.
    pose proof (int_nonneg_bounds _ H2) as [_ [_ Hceil]].
    rewrite Hgl, half_step_inject in Hlt.
    assert (Hz : (Z.of_nat (List.length rows - 1) < Py.int (t * 2) + 1)%Z).
    { rewrite Zlt_Qlt. lra. }
    assert (Hidx : Z.to_nat (App.lookup_index rows t) = (List.length rows - 1)%nat).
    { unfold App.lookup_index in *. lia. }
    rewrite Hidx in Hnth. congruence.
Qed.


(** ** The session invariant *)

Lemma initial_consistent : App.consistent App.initial.
Proof. split; simpl; intros H; [discriminate|congruence]. Qed.

Lemma generate_profile_consistent gen w now s s' :
  App.generate_profile gen w now s = inr s' ->
  App.consistent s -> App.consistent s'.
Proof.
  unfold App.generate_profile, Py.bind, Py.ret.
  destruct (gen _ _ _ _) as [e|p]; [discriminate|].
  intros H; injection H as <-. intros [Hrun Hdata].
  split; simpl.
  - intros Hp. split; [apply Hrun; exact Hp|discriminate].
  - exact Hdata.
Qed.

Lemma press_start_consistent w now now_event s s' :
  App.press_start w now now_event s = Some s' ->
  App.consistent s -> App.consistent s'.
Proof.
  unfold App.press_start, App.button, App.start_disabled.
  destruct (App.roast_in_progress s); simpl; [discriminate|].
  destruct (App.roast_profile s) as [p|] eqn:Hp; [|discriminate].
  intros H; injection H as <-. intros _.
  split; simpl; intros _; [split|]; try discriminate.
  rewrite Hp. discriminate.
Qed.

Lemma set_events_consistent log s :
  App.consistent s -> App.consistent (App.set_events log s).
Proof. intros H. exact H. Qed.

Lemma press_add_event_consistent w now s s' :
  App.press_add_event w now s = Some s' ->
  App.consistent s -> App.consistent s'.
Proof.
  unfold App.press_add_event, App.button, App.add_operator_event.
  destruct (App.not_in_progress s); [discriminate|].
  intros H; injection H as <-.
  destruct (App.confirm_event_pressed w); [apply set_events_consistent|tauto].
Qed.

Lemma end_roast_consistent now now_event s s' :
  App.end_roast now now_event s = inr s' ->
  App.consistent s -> App.consistent s'.
Proof.
  unfold App.end_roast, Py.ret, Py.raise.
  destruct (App.start_time s) as [t0|] eqn:Ht; [|discriminate].
  intros H; injection H as <-. intros _.
  split; simpl; [intros H; discriminate|intros _].
  rewrite ?Ht. discriminate.
Qed.

Lemma monitor_consistent now s s' :
  App.monitor now s = inr s' ->
  App.consistent s -> App.consistent s'.
Proof.
  unfold App.monitor, Py.ret, Py.raise.
  destruct (App.roast_in_progress s) eqn:Hrun;
    [|intros H; injection H as <-; tauto].
  destruct (App.roast_profile s) as [p|] eqn:Hp;
    [|intros H; injection H as <-; tauto].
  destruct (App.start_time s) as [t0|] eqn:Ht; [|discriminate].
  unfold Py.bind.
  destruct (App.current_temp _ _) as [e|temp]; [discriminate|].
  intros H; injection H as <-. intros _.
  split; simpl; intros _; [split|]; rewrite ?Ht, ?Hp; discriminate.
Qed.

Lemma clear_events_consistent w s :
  App.consistent s -> App.consistent (App.clear_events w s).
Proof.
  unfold App.clear_events.
  destruct (_ && _); [apply set_events_consistent|tauto].
Qed.

(** Every run of the script that does not raise keeps the invariant. *)
Lemma run_consistent gen w c s s' shown :
  App.run gen w c s = inr (s', shown) ->
  App.consistent s -> App.consistent s'.
Proof.
  unfold App.run, Py.bind, Py.ret. intros H Hs.
  destruct (if App.generate_profile_pressed w then _ else _) as [e|s1] eqn:H1;
    [discriminate|].
  assert (C1 : App.consistent s1).
  { destruct (App.generate_profile_pressed w).
    - exact (generate_profile_consistent _ _ _ _ _ H1 Hs).
    - injection H1 as <-. exact Hs. }
  remember (if App.start_roast_pressed w then _ else s1) as s2 eqn:H2 in H.
  assert (C2 : App.consistent s2).
  { subst s2. destruct (App.start_roast_pressed w); [|exact C1].
    destruct (App.press_start _ _ _ s1) eqn:E; [|exact C1].
    exact (press_start_consistent _ _ _ _ _ E C1). }
  clear H2.
  remember (if App.add_event_pressed w then _ else s2) as s3 eqn:H3 in H.
  assert (C3 : App.consistent s3).
  { subst s3. destruct (App.add_event_pressed w); [|exact C2].
    destruct (App.press_add_event _ _ s2) eqn:E; [|exact C2].
    exact (press_add_event_consistent _ _ _ _ E C2). }
  clear H3.
  destruct (if App.end_roast_pressed w then _ else _) as [e|s4] eqn:H4;
    [discriminate|].
  assert (C4 : App.consistent s4).
  { destruct (App.end_roast_pressed w); [|injection H4 as <-; exact C3].
    unfold App.press_end, App.button in H4.
    destruct (App.not_in_progress s3); [injection H4 as <-; exact C3|].
    exact (end_roast_consistent _ _ _ _ H4 C3). }
  destruct (App.monitor _ s4) as [e|s5] eqn:H5; [discriminate|].
  pose proof (monitor_consistent _ _ _ H5 C4) as C5.
  destruct (App.roast_statistics _ _) as [e|out]; [discriminate|].
  injection H as <- _. apply clear_events_consistent. exact C5.
Qed.

Lemma replay_consistent inputs s s' :
  Examples.replay inputs s = inr s' ->
  App.consistent s -> App.consistent s'.
Proof.
  revert s. induction inputs as [|[w c] rest IH]; intros s; simpl.
  - unfold Py.ret. intros H; injection H as <-. tauto.
  - unfold Py.bind, Py.ret.
    destruct (App.run _ w c s) as [e|[s1 shown]] eqn:Hrun; [discriminate|].
    simpl. intros H Hs. apply (IH s1 H).
    exact (run_consistent _ _ _ _ _ _ Hrun Hs).
Qed.

(** ** Starting and ending a roast (lines 88-91 and 101-104) *)

Lemma in_progress_iff (s : App.state) :
  App.lifecycle_of s = App.InProgress <-> App.roast_in_progress s = true.
Proof.
  unfold App.lifecycle_of.
  destruct (App.roast_in_progress s); [tauto|].
  destruct (App.start_time s); split; discriminate.
Qed.




(** C8, as the script has it.  End Roast is accepted only while the session
    is in progress: it moves the session to completed and appends a "Roast
    Completed" event whose details give the elapsed duration, the current
    time minus the start time, in minutes with one digit after the point.
    In any other state the button is disabled: the press is refused and
    nothing is raised, the run goes on with the session as it was. *)
Theorem press_end_spec (now now_event : Z) (s : App.state) :
  App.consistent s ->
  (App.lifecycle_of s = App.InProgress ->
   exists started s',
     App.start_time s = Some started
     /\ App.press_end now now_event s = Some (inr s')
     /\ App.lifecycle_of s' = App.Completed
     /\ App.events s'
        = App.events s
            ++ [{| EventHandler.timestamp := now_event;
                   EventHandler.event_type := "Roast Completed";
                   EventHandler.details :=
                     ("Duration: "
                        ++ Py.format_1f (Py.total_minutes (now - started))
                        ++ " minutes")%string |}]
     /\ App.start_time s' = App.start_time s
     /\ App.roast_profile s' = App.roast_profile s
     /\ App.roast_data s' = App.roast_data s)
  /\ (App.lifecycle_of s <> App.InProgress ->
      App.press_end now now_event s = None
      /\ forall w c, App.end_stage w c s = inr s).
Proof.
  intros [Hrun _].
  unfold App.end_stage, App.press_end, App.button, App.not_in_progress.
  split.
  - intros H. apply in_progress_iff in H. rewrite H. simpl.
    destruct (Hrun H) as [Hstart _].
    unfold App.end_roast.
    destruct (App.start_time s) as [started|] eqn:Ht; [|congruence].
    exists started. eexists. split; [reflexivity|].
    split; [reflexivity|].
    unfold App.lifecycle_of. simpl. repeat split.
  - intros H.
    destruct (App.roast_in_progress s) eqn:Hr.
    + exfalso. apply H. apply in_progress_iff. exact Hr.
    + split; [reflexivity|]. intros w c.
      destruct (App.end_roast_pressed w); reflexivity.
Qed.

Lemma roasting_consistent : App.consistent Examples.roasting.
Proof.
  split; simpl; intros H; [split|]; discriminate.
Qed.

Lemma ready_is_consistent : App.consistent Examples.ready.
Proof. split; simpl; intros H; [discriminate|congruence]. Qed.

(** Ended 603 seconds after the start: 10.05 minutes, printed as the double
    just above it. *)
Lemma press_end_spec_witness :
  (App.consistent Examples.roasting
   /\ App.lifecycle_of Examples.roasting = App.InProgress
   /\ exists s',
       App.press_end 603000000 603000001 Examples.roasting = Some (inr s')
       /\ App.lifecycle_of s' = App.Completed
       /\ App.events s'
          = App.events Examples.roasting
              ++ [{| EventHandler.timestamp := 603000001;
                     EventHandler.event_type := "Roast Completed";
                     EventHandler.details := "Duration: 10.1 minutes" |}])
  /\ (App.consistent Examples.ready
      /\ App.lifecycle_of Examples.ready <> App.InProgress
      /\ App.press_end 603000000 603000001 Examples.ready = None).
Proof.
  split.
  - split; [exact roasting_consistent|]. split; [reflexivity|].
    destruct (press_end_spec 603000000 603000001 Examples.roasting
                roasting_consistent) as [H _].
    destruct (H eq_refl) as [started [s' [H0 [H1 [H2 [H3 _]]]]]].
    exists s'. split; [exact H1|]. split; [exact H2|].
    rewrite H3. injection H0 as <-. vm_compute. reflexivity.
  - assert (Hl : App.lifecycle_of Examples.ready <> App.InProgress)
      by discriminate.
    split; [exact ready_is_consistent|]. split; [exact Hl|].
    destruct (press_end_spec 603000000 603000001 Examples.ready
                ready_is_consistent) as [_ H].
    destruct (H Hl) as [Hnone _]. exact Hnone.
Defined.

(** C8 as stated fails outside a roast: nothing fails.  On a session that
    has not started, and on one that has finished, a run with End Roast
    pressed raises no error; it returns the session it was given. *)
Lemma end_press_outside_roast_raises_nothing :
  (App.lifecycle_of Examples.ready = App.Idle
   /\ App.press_end Examples.minute Examples.minute Examples.ready = None
   /\ App.run Examples.generator (Examples.press false false true)
        (Examples.at_time Examples.minute) Examples.ready
      = inr (Examples.ready, None))
  /\ (App.lifecycle_of Examples.after_one_roast = App.Completed
      /\ exists shown,
          App.run Examples.generator (Examples.press false false true)
            (Examples.at_time (12 * Examples.minute)) Examples.after_one_roast
          = inr (Examples.after_one_roast, shown)).
Proof.
  split.
  - split; [reflexivity|]. split; [reflexivity|]. vm_compute. reflexivity.
  - split; [vm_compute; reflexivity|]. eexists. vm_compute. reflexivity.
Qed.

(** ** Roast statistics (lines 150-165) *)

Lemma is_kind_true (kind : string) (e : EventHandler.event) :
  EventHandler.is_kind kind e = true <-> EventHandler.event_type e = kind.
Proof. unfold EventHandler.is_kind. apply String.eqb_eq. Qed.

Lemma is_kind_false (kind : string) (e : EventHandler.event) :
  EventHandler.is_kind kind e = false <-> EventHandler.event_type e <> kind.
Proof. unfold EventHandler.is_kind. apply String.eqb_neq. Qed.

Lemma filter_none (kind : string) (log : list EventHandler.event) :
  (forall e, In e log -> EventHandler.event_type e <> kind) ->
  filter (EventHandler.is_kind kind) log = []
  /\ existsb (EventHandler.is_kind kind) log = false.
Proof.
  induction log as [|e log IH]; intros H; simpl; [split; reflexivity|].
  assert (He : EventHandler.is_kind kind e = false).
  { apply is_kind_false. apply H. left. reflexivity. }
  rewrite He. simpl. apply IH. intros x Hx. apply H. right. exact Hx.
Qed.

Lemma total_minutes_value (us : Z) :
  (Py.total_minutes us == inject_Z us / 60000000)%Q.
Proof. unfold Py.total_minutes. apply Qmake_Qdiv. Qed.

(** C4.  Without a "First Crack" event in the log the time to first crack is
    the "N/A" sentinel and nothing is raised, whatever the start time.  With
    one, and with the start time of the session, it is the elapsed minutes
    from the start time to the timestamp of the first such event: the
    microseconds between the two, divided by the 60,000,000 of a minute. *)
Theorem time_to_first_crack_spec (events_df : list EventHandler.event)
    (started_at : option Z) :
  ((forall e, In e events_df -> EventHandler.event_type e <> "First Crack"%string) ->
   App.time_to_first_crack events_df started_at = inr None)
  /\ (forall before crack after started,
        events_df = before ++ crack :: after ->
        (forall e, In e before ->
                   EventHandler.event_type e <> "First Crack"%string) ->
        EventHandler.event_type crack = "First Crack"%string ->
        started_at = Some started ->
        exists minutes,
          App.time_to_first_crack events_df started_at = inr (Some minutes)
          /\ (minutes
              == inject_Z (EventHandler.timestamp crack - started) / 60000000)%Q).
Proof.
  unfold App.time_to_first_crack. split.
  - intros H. destruct (filter_none _ _ H) as [_ Hex].
    rewrite Hex, andb_false_r. reflexivity.
  - intros before crack after started -> Hbefore Hcrack ->.
    destruct (filter_none _ _ Hbefore) as [Hfilter _].
    apply is_kind_true in Hcrack.
    assert (Hex : existsb (EventHandler.is_kind "First Crack")
                    (before ++ crack :: after) = true).
    { apply existsb_exists. exists crack. split; [|exact Hcrack].
      apply in_or_app. right. left. reflexivity. }
    assert (Hne : Pandas.empty (before ++ crack :: after) = false)
      by (destruct before; reflexivity).
    rewrite Hex, Hne. simpl andb. cbv iota.
    rewrite filter_app, Hfilter. simpl. rewrite Hcrack.
    eexists. split; [reflexivity|]. apply total_minutes_value.
Qed.

(** No first crack yet in a roast just started; eight minutes to the first
    crack once it is logged at minute eight. *)
Lemma time_to_first_crack_spec_witness :
  App.time_to_first_crack (App.events Examples.roasting)
    (App.start_time Examples.roasting) = inr None
  /\ exists minutes,
      App.time_to_first_crack (App.events Examples.cracked)
        (App.start_time Examples.cracked) = inr (Some minutes)
      /\ (minutes == 8)%Q.
Proof.
  split.
  - destruct (time_to_first_crack_spec (App.events Examples.roasting)
                (App.start_time Examples.roasting)) as [H _].
    apply H. intros e [<-|[]]. discriminate.
  - destruct (time_to_first_crack_spec (App.events Examples.cracked)
                (App.start_time Examples.cracked)) as [_ H].
    destruct (H [{| EventHandler.timestamp := 0;
                    EventHandler.event_type := "Roast Started";
                    EventHandler.details :=
                      "Batch: 250g Arabica from Colombia" |}]
                {| EventHandler.timestamp := 8 * Examples.minute;
                   EventHandler.event_type := "First Crack";
                   EventHandler.details := "" |}
                [] 0%Z) as [minutes [H1 H2]].
    + reflexivity.
    + intros e [<-|[]]. discriminate.
    + reflexivity.
    + reflexivity.
    + exists minutes. split; [exact H1|]. rewrite H2. reflexivity.
Defined.

Lemma max_spec (series : list Q) :
  series <> [] ->
  exists m, Pandas.max series = Some m
            /\ In m series
            /\ forall x, In x series -> (x <= m)%Q.
Proof.
  induction series as [|x rest IH]; intros Hne; [congruence|].
  simpl. destruct rest as [|y rest'].
  - simpl. exists x. split; [reflexivity|]. split; [left; reflexivity|].
    intros z [<-|[]]. apply Qle_refl.
  - destruct IH as [m [Hm [Hin Hmax]]]; [discriminate|].
    rewrite Hm.
    destruct (Qle_bool x m) eqn:Hx.
    + exists m. split; [reflexivity|]. split; [right; exact Hin|].
      intros z [<-|Hz]; [apply Qle_bool_iff; exact Hx|apply Hmax; exact Hz].
    + apply Qle_bool_false_iff in Hx.
      exists x. split; [reflexivity|]. split; [left; reflexivity|].
      intros z [<-|Hz]; [apply Qle_refl|].
      apply Qle_trans with m; [apply Hmax; exact Hz|apply Qlt_le_weak; exact Hx].
Qed.

(** C10.  While the live trace is empty the statistics block draws nothing:
    none of the three values is produced, also with a "First Crack" event in
    the log.  Once the trace is not empty all three are produced: the latest
    temperature is the last one recorded, the peak temperature is the maximum
    over the recorded trace, and the time to first crack is the one of
    lines 153-160. *)
Theorem roast_statistics_spec (s : App.state)
    (events_df : list EventHandler.event) :
  App.consistent s ->
  (App.roast_data s = [] -> App.roast_statistics s events_df = inr None)
  /\ (App.roast_data s <> [] ->
      exists shown peak crack,
        App.roast_statistics s events_df = inr (Some shown)
        /\ App.latest_temp shown
           = List.last (map App.Temperature (App.roast_data s)) 0%Q
        /\ App.max_temp shown = Some peak
        /\ In peak (map App.Temperature (App.roast_data s))
        /\ (forall x, In x (map App.Temperature (App.roast_data s)) ->
                      (x <= peak)%Q)
        /\ App.time_to_first_crack events_df (App.start_time s) = inr crack
        /\ App.first_crack shown = crack).
Proof.
  intros [_ Hdata]. unfold App.roast_statistics. split.
  - intros ->. reflexivity.
  - intros Hne.
    assert (Hseries : map App.Temperature (App.roast_data s) <> []).
    { destruct (App.roast_data s); [congruence|discriminate]. }
    assert (Hempty : Pandas.empty (App.roast_data s) = false).
    { destruct (App.roast_data s); [congruence|reflexivity]. }
    rewrite Hempty. simpl negb. cbv iota.
    rewrite (iloc_last _ _ 0%Q Hseries).
    destruct (max_spec _ Hseries) as [peak [Hpeak [Hin Hmax]]].
    assert (Hcrack : exists crack,
               App.time_to_first_crack events_df (App.start_time s) = inr crack).
    { destruct (App.start_time s) as [t0|] eqn:Ht; [|exfalso; apply (Hdata Hne); reflexivity].
      unfold App.time_to_first_crack.
      destruct (negb (Pandas.empty events_df)
                && existsb (EventHandler.is_kind "First Crack") events_df) eqn:Hex;
        [|eexists; reflexivity].
      apply andb_true_iff in Hex. destruct Hex as [_ Hex].
      apply existsb_exists in Hex. destruct Hex as [e [He Hk]].
      assert (Hf : In (EventHandler.timestamp e)
                     (map EventHandler.timestamp
                        (filter (EventHandler.is_kind "First Crack") events_df))).
      { apply in_map. apply filter_In. split; assumption. }
      destruct (map EventHandler.timestamp _) as [|t1 ts]; [destruct Hf|].
      eexists. reflexivity. }
    destruct Hcrack as [crack Hcrack].
    exists {| App.latest_temp := List.last (map App.Temperature (App.roast_data s)) 0%Q;
              App.max_temp := Pandas.max (map App.Temperature (App.roast_data s));
              App.first_crack := crack |}, peak, crack.
    simpl. rewrite Hcrack. simpl. repeat split; assumption.
Qed.

(** A session in progress whose trace is still empty, with a first crack
    already in the log: nothing is shown. *)
Lemma cracked_consistent : App.consistent Examples.cracked.
Proof.
  split; simpl; intros H; [split; discriminate|congruence].
Qed.

Lemma after_one_roast_consistent : App.consistent Examples.after_one_roast.
Proof.
  apply (replay_consistent Examples.one_roast App.initial).
  - vm_compute. reflexivity.
  - exact initial_consistent.
Qed.

Lemma roast_statistics_spec_witness :
  (App.consistent Examples.cracked
   /\ App.roast_data Examples.cracked = []
   /\ existsb (EventHandler.is_kind "First Crack") (App.events Examples.cracked)
      = true
   /\ App.roast_statistics Examples.cracked (App.events Examples.cracked)
      = inr None)
  /\ (App.consistent Examples.after_one_roast
      /\ App.roast_data Examples.after_one_roast <> []
      /\ exists shown peak,
          App.roast_statistics Examples.after_one_roast
            (App.events Examples.after_one_roast) = inr (Some shown)
          /\ App.max_temp shown = Some peak
          /\ (peak == 190)%Q).
Proof.
  split.
  - split; [exact cracked_consistent|]. split; [reflexivity|].
    split; [reflexivity|].
    destruct (roast_statistics_spec Examples.cracked
                (App.events Examples.cracked) cracked_consistent) as [H _].
    exact (H eq_refl).
  - assert (Hne : App.roast_data Examples.after_one_roast <> [])
      by (vm_compute; discriminate).
    split; [exact after_one_roast_consistent|]. split; [exact Hne|].
    destruct (roast_statistics_spec Examples.after_one_roast
                (App.events Examples.after_one_roast)
                after_one_roast_consistent) as [_ H].
    destruct (H Hne) as [shown [peak [crack [Hshown [_ [Hpeak [Hin _]]]]]]].
    exists shown, peak. split; [exact Hshown|]. split; [exact Hpeak|].
    vm_compute in Hin. destruct Hin as [<-|[]]. reflexivity.
Defined.

(** ** The profile generator *)

Lemma charge_temp_in_range_iff (charge : Q) :
  Profile.charge_temp_in_range charge = true
  <-> (150 <= charge)%Q /\ (charge <= 250)%Q.
Proof.
  unfold Profile.charge_temp_in_range.
  rewrite andb_true_iff, !Qle_bool_iff. reflexivity.
Qed.

Lemma development_time_in_range_iff (pct : Q) :
  Profile.development_time_in_range pct = true
  <-> (0 < pct)%Q /\ (pct < 100)%Q.
Proof.
  unfold Profile.development_time_in_range.
  rewrite andb_true_iff, !Qlt_bool_iff. reflexivity.
Qed.

Section GeneratorProperties.

Variable end_temperature : Profile.roast_level -> Q.
Variable duration_steps : Profile.roast_level -> nat.
Variable ramp : Q -> Q.

Local Abbreviation generate :=
  (Profile.generate end_temperature duration_steps ramp).
Local Abbreviation synthesize :=
  (Profile.synthesize end_temperature duration_steps ramp).
Local Abbreviation temperature_at :=
  (Profile.temperature_at end_temperature duration_steps ramp).

Lemma generate_in_range bean level charge pct :
  Profile.charge_temp_in_range charge = true ->
  Profile.development_time_in_range pct = true ->
  generate bean level charge pct
  = inr {| Profile.samples := synthesize level charge pct;
           Profile.charge_temperature := charge;
           Profile.target_roast_level := level;
           Profile.bean_type := bean;
           Profile.development_time_pct := pct |}.
Proof.
  intros Hc Hp. unfold Profile.generate.
  rewrite Hc, Hp. reflexivity.
Qed.

Lemma synthesize_nth level charge pct i r :
  nth_error (synthesize level charge pct) i = Some r ->
  (i <= duration_steps level)%nat
  /\ r = {| Profile.elapsed_minutes := Profile.sample_time i;
            Profile.Temperature :=
              temperature_at level charge pct (Profile.sample_time i) |}.
Proof.
  unfold Profile.synthesize.
  rewrite nth_error_map, nth_error_seq.
  destruct (Nat.ltb i (S (duration_steps level))) eqn:Hlt; [|discriminate].
  apply Nat.ltb_lt in Hlt. simpl. intros H; injection H as <-.
  split; [lia|reflexivity].
Qed.

Lemma synthesize_length level charge pct :
  List.length (synthesize level charge pct) = S (duration_steps level).
Proof.
  unfold Profile.synthesize.
  rewrite length_map, length_seq. reflexivity.
Qed.

Lemma synthesize_final level charge pct :
  Profile.final (synthesize level charge pct)
  = Some {| Profile.elapsed_minutes :=
              Profile.sample_time (duration_steps level);
            Profile.Temperature :=
              temperature_at level charge pct
                (Profile.sample_time (duration_steps level)) |}.
Proof.
  unfold Profile.final. rewrite synthesize_length.
  replace (S (duration_steps level) - 1)%nat with (duration_steps level) by lia.
  unfold Profile.synthesize.
  rewrite nth_error_map, nth_error_seq.
  assert (Hlt : Nat.ltb (duration_steps level) (S (duration_steps level)) = true)
    by (apply Nat.ltb_lt; lia).
  rewrite Hlt. reflexivity.
Qed.

(** Every table the generator synthesizes has a first row and lies on
    the half-minute grid, whatever the tables and the ramp. *)
Lemma synthesize_nonempty level charge pct :
  synthesize level charge pct <> [].
Proof.
  intros E. pose proof (synthesize_length level charge pct) as H.
  rewrite E in H. discriminate.
Qed.

Lemma synthesize_on_grid level charge pct :
  App.half_minute_grid (synthesize level charge pct).
Proof.
  intros i r H. apply synthesize_nth in H. destruct H as [_ ->].
  reflexivity.
Qed.

Lemma generated_profile_on_grid bean level charge pct profile :
  generate bean level charge pct = inr profile ->
  Profile.samples profile <> []
  /\ App.half_minute_grid (Profile.samples profile).
Proof.
  unfold Profile.generate.
  destruct (negb (Profile.charge_temp_in_range charge)); [discriminate|].
  destruct (negb (Profile.development_time_in_range pct)); [discriminate|].
  unfold Py.ret. intros H; injection H as <-. simpl. split.
  - apply synthesize_nonempty.
  - apply synthesize_on_grid.
Qed.

End GeneratorProperties.

Lemma current_temp_nearest_on_grid_witness :
  Examples.generated_rows <> []
  /\ App.half_minute_grid Examples.generated_rows
  /\ (exists r,
        App.nearest_sample (7 # 10) Examples.generated_rows = Some r
        /\ App.current_temp Examples.generated_rows (7 # 10)
           = inr (Profile.Temperature r))
  /\ (exists l,
        Profile.final Examples.generated_rows = Some l
        /\ (Profile.elapsed_minutes l < 90)%Q
        /\ App.nearest_sample 90 Examples.generated_rows = Some l
        /\ App.current_temp Examples.generated_rows 90
           = inr (Profile.Temperature l)
        /\ Profile.Temperature l = 215%Q).
Proof.
  assert (Hne : Examples.generated_rows <> []) by apply synthesize_nonempty.
  assert (Hgrid : App.half_minute_grid Examples.generated_rows)
    by apply synthesize_on_grid.
  split; [exact Hne|]. split; [exact Hgrid|]. split.
  - destruct (current_temp_nearest_on_grid Examples.generated_rows (7 # 10)
                Hne Hgrid) as [r [H1 [H2 _]]]; [unfold Qle; simpl; lia|].
    exists r. split; assumption.
  - destruct (current_temp_nearest_on_grid Examples.generated_rows 90
                Hne Hgrid) as [r [H1 [H2 H3]]]; [unfold Qle; simpl; lia|].
    assert (Hfinal : Profile.final Examples.generated_rows
                     = Some {| Profile.elapsed_minutes := 24 # 2;
                               Profile.Temperature := 215 |})
      by (vm_compute; reflexivity).
    assert (Hlt : (24 # 2 < 90)%Q) by (unfold Qlt; simpl; lia).
    pose proof (H3 _ Hfinal Hlt) as Hr. subst r.
    eexists. split; [exact Hfinal|]. split; [exact Hlt|].
    split; [exact H1|]. split; [exact H2|reflexivity].
Defined.

(** C7.  Whenever the charge temperature lies outside 150-250 or the
    development-time percentage outside (0, 100), the generator fails with
    [InvalidParameter] naming a parameter that is out of range; it returns no
    profile, so no input is clamped into range. *)
Theorem generate_rejects_out_of_range
    (end_temperature : Profile.roast_level -> Q)
    (duration_steps : Profile.roast_level -> nat) (ramp : Q -> Q)
    (bean : string) (level : Profile.roast_level) (charge pct : Q) :
  (charge < 150 \/ 250 < charge \/ pct <= 0 \/ 100 <= pct)%Q ->
  exists parameter why,
    Profile.generate end_temperature duration_steps ramp bean level charge pct
    = inl (Py.InvalidParameter parameter why)
    /\ ((parameter = "charge_temp"%string
         /\ (charge < 150 \/ 250 < charge)%Q)
        \/ (parameter = "development_time_pct"%string
            /\ (pct <= 0 \/ 100 <= pct)%Q)).
Proof.
  intros H. unfold Profile.generate.
  destruct (Profile.charge_temp_in_range charge) eqn:Hc; simpl.
  - destruct (Profile.development_time_in_range pct) eqn:Hp; simpl.
    + apply charge_temp_in_range_iff in Hc.
      apply development_time_in_range_iff in Hp. lra.
    + eexists. eexists. split; [reflexivity|]. right. split; [reflexivity|].
      unfold Profile.development_time_in_range in Hp.
      apply andb_false_iff in Hp. destruct Hp as [Hp|Hp].
      * left. apply Qnot_lt_le. intros Hlt. apply Qlt_bool_iff in Hlt. congruence.
      * right. apply Qnot_lt_le. intros Hlt. apply Qlt_bool_iff in Hlt. congruence.
  - eexists. eexists. split; [reflexivity|]. left. split; [reflexivity|].
    unfold Profile.charge_temp_in_range in Hc.
    apply andb_false_iff in Hc. destruct Hc as [Hc|Hc];
      apply Qle_bool_false_iff in Hc; [left|right]; exact Hc.
Qed.

Lemma generate_rejects_out_of_range_witness :
  exists parameter why,
    Examples.generator "Arabica" Profile.Medium 260 20
    = inl (Py.InvalidParameter parameter why)
    /\ ((parameter = "charge_temp"%string /\ (260 < 150 \/ 250 < 260)%Q)
        \/ (parameter = "development_time_pct"%string
            /\ (20 <= 0 \/ 100 <= 20)%Q)).
Proof.
  apply (generate_rejects_out_of_range Profile.example_end_temperature
           Profile.example_duration_steps Profile.quadratic_ramp
           "Arabica" Profile.Medium 260 20).
  right. left. reflexivity.
Defined.


(** ** The Generate button (lines 65-69) *)

(** The profile a run stores depends on the four sidebar values handed to
    the generator only: not on the session it is stored in, nor on the
    clock. *)
Lemma generate_profile_stores gen w now s s' :
  App.generate_profile gen w now s = inr s' ->
  exists profile,
    gen (App.bean_type w) (App.roast_level w) (inject_Z (App.charge_temp w))
      (inject_Z (App.development_time w)) = inr profile
    /\ App.roast_profile s' = Some profile
    /\ App.lifecycle_of s' = App.lifecycle_of s.
Proof.
  unfold App.generate_profile, Py.bind, Py.ret.
  destruct (gen _ _ _ _) as [e|profile]; [discriminate|].
  intros H; injection H as <-. exists profile. repeat split.
Qed.

(** The sliders of lines 62-63 keep the generator's inputs in range. *)
Lemma slider_values_in_range (charge pct : Z) :
  (150 <= charge <= 250)%Z -> (10 <= pct <= 40)%Z ->
  Profile.charge_temp_in_range (inject_Z charge) = true
  /\ Profile.development_time_in_range (inject_Z pct) = true.
Proof.
  intros Hc Hp. split.
  - apply charge_temp_in_range_iff.
    change 150%Q with (inject_Z 150). change 250%Q with (inject_Z 250).
    rewrite <- !Zle_Qle. lia.
  - apply development_time_in_range_iff.
    change 0%Q with (inject_Z 0). change 100%Q with (inject_Z 100).
    rewrite <- !Zlt_Qlt. lia.
Qed.

(** * Further properties of the script *)

(** ** The lookup by position (lines 112-114) *)

Lemma int_of_step (x : Q) (k : Z) :
  (inject_Z k <= x)%Q -> (x < inject_Z (k + 1))%Q -> (0 <= k)%Z ->
  Py.int x = k.
Proof.
  intros Hlo Hhi Hk.
  assert (Hx : (0 <= x)%Q).
  { apply Qle_trans with (inject_Z k); [|exact Hlo].
    change 0%Q with (inject_Z 0). rewrite <- Zle_Qle. exact Hk. }
  destruct (int_nonneg_bounds x Hx) as [_ [Hfloor Hceil]].
  assert (H1 : (Py.int x < k + 1)%Z).
  { rewrite Zlt_Qlt. apply Qle_lt_trans with x; assumption. }
  assert (H2 : (k < Py.int x + 1)%Z).
  { rewrite Zlt_Qlt. apply Qle_lt_trans with x; assumption. }
  lia.
Qed.

(** Truncation towards zero on a negative float. *)
Lemma int_of_negative_step (x : Q) (k : Z) :
  (inject_Z (- (k + 1)) < x)%Q -> (x <= inject_Z (- k))%Q -> (0 <= k)%Z ->
  Py.int x = (- k)%Z.
Proof.
  intros Hlo Hhi Hk.
  destruct x as [n d]. unfold Py.int, Qlt, Qle in *. simpl in *.
  assert (Hq : (- n ÷ Z.pos d = k)%Z).
  { assert (Hn : (0 <= - n)%Z) by nia.
    rewrite Z.quot_div_nonneg by lia.
    symmetry. apply (Z.div_unique_pos (- n) (Z.pos d) k (- n - k * Z.pos d)); nia. }
  rewrite <- Hq, Z.quot_opp_l by lia. lia.
Qed.

Lemma two_times_half_steps (t : Q) (k : Z) :
  ((k # 2 <= t)%Q <-> (inject_Z k <= t * 2)%Q)
  /\ ((t < k # 2)%Q <-> (t * 2 < inject_Z k)%Q)
  /\ ((t <= k # 2)%Q <-> (t * 2 <= inject_Z k)%Q)
  /\ ((k # 2 < t)%Q <-> (inject_Z k < t * 2)%Q).
Proof.
  pose proof (half_step_inject k) as H.
  repeat split; intros H1; try rewrite H in *; try (rewrite H); lra.
Qed.

(** X1.  Whatever the elapsed column holds, the lookup reads the table by
    position: during the half minute [k/2, (k+1)/2) it returns the
    temperature of row [k], if the table has one. *)
Theorem current_temp_by_position (rows : list Profile.row) (t : Q) (k : nat)
    (r : Profile.row) :
  nth_error rows k = Some r ->
  (Z.of_nat k # 2 <= t)%Q -> (t < Z.of_nat (S k) # 2)%Q ->
  App.current_temp rows t = inr (Profile.Temperature r).
Proof.
  intros Hnth Hlo Hhi.
  apply two_times_half_steps in Hlo. apply two_times_half_steps in Hhi.
  assert (Hint : Py.int (t * 2) = Z.of_nat k).
  { apply int_of_step; [exact Hlo| |lia].
    replace (Z.of_nat k + 1)%Z with (Z.of_nat (S k)) by lia. exact Hhi. }
  assert (Hlen : (k < List.length rows)%nat) by (apply nth_error_Some; congruence).
  assert (Hidx : App.lookup_index rows t = Z.of_nat k).
  { unfold App.lookup_index. rewrite Hint. lia. }
  destruct (iloc_in_range _ rows (Z.of_nat k)) as [r' [Hr' Hiloc]]; [lia|].
  rewrite Nat2Z.id in Hr'. assert (r' = r) by congruence. subst r'.
  unfold App.current_temp. rewrite Hidx, Hiloc. reflexivity.
Qed.

Lemma current_temp_by_position_witness :
  App.current_temp Examples.one_minute_table (12 # 10) = inr 200%Q.
Proof.
  apply (current_temp_by_position Examples.one_minute_table (12 # 10) 2
           {| Profile.elapsed_minutes := 2; Profile.Temperature := 200 |}).
  - reflexivity.
  - unfold Qle; simpl; lia.
  - unfold Qlt; simpl; lia.
Defined.

(** X2.  From [(len - 1) / 2] minutes on the lookup returns the temperature
    of the last row, for any table: a roast that outlasts its profile keeps
    reading the final temperature. *)
Theorem current_temp_clamped (rows : list Profile.row) (t : Q)
    (last : Profile.row) :
  Profile.final rows = Some last ->
  (Z.of_nat (List.length rows - 1) # 2 <= t)%Q ->
  App.current_temp rows t = inr (Profile.Temperature last).
Proof.
  intros Hfinal Hlo. apply final_last in Hfinal. destruct Hfinal as [Hnth Hne].
  assert (Hlen : (0 < List.length rows)%nat) by (destruct rows; simpl; [congruence|lia]).
  apply two_times_half_steps in Hlo.
  assert (Ht : (0 <= t * 2)%Q).
  { apply Qle_trans with (inject_Z (Z.of_nat (List.length rows - 1))); [|exact Hlo].
    change 0%Q with (inject_Z 0). rewrite <- Zle_Qle. lia. }
  destruct (int_nonneg_bounds _ Ht) as [_ [_ Hceil]].
  assert (Hge : (Z.of_nat (List.length rows - 1) < Py.int (t * 2) + 1)%Z).
  { rewrite Zlt_Qlt. apply Qle_lt_trans with (t * 2)%Q; assumption. }
  assert (Hidx : App.lookup_index rows t = Z.of_nat (List.length rows - 1)).
  { unfold App.lookup_index. lia. }
  destruct (iloc_in_range _ rows (Z.of_nat (List.length rows - 1)))
    as [r' [Hr' Hiloc]]; [lia|].
  rewrite Nat2Z.id in Hr'. assert (r' = last) by congruence. subst r'.
  unfold App.current_temp. rewrite Hidx, Hiloc. reflexivity.
Qed.

Lemma current_temp_clamped_witness :
  App.current_temp Examples.quarter_minute_table 90 = inr 130%Q.
Proof.
  apply (current_temp_clamped Examples.quarter_minute_table 90
           {| Profile.elapsed_minutes := 3 # 4; Profile.Temperature := 130 |}).
  - reflexivity.
  - unfold Qle; simpl; lia.
Defined.

(** X3.  [int] truncates towards zero, so a clock reading up to half a
    minute before the start time still reads the first row. *)
Theorem current_temp_just_before_start (rows : list Profile.row) (t : Q)
    (first : Profile.row) :
  nth_error rows 0 = Some first ->
  (- (1 # 2) < t)%Q -> (t < 0)%Q ->
  App.current_temp rows t = inr (Profile.Temperature first).
Proof.
  intros Hnth Hlo Hhi.
  assert (Hint : Py.int (t * 2) = (- 0)%Z).
  { apply int_of_negative_step; [|  |lia].
    - change (inject_Z (- (0 + 1))) with (- (1))%Q. lra.
    - change (inject_Z (- 0)) with 0%Q. lra. }
  assert (Hlen : (0 < List.length rows)%nat) by (apply nth_error_Some; congruence).
  assert (Hidx : App.lookup_index rows t = 0%Z).
  { unfold App.lookup_index. rewrite Hint. lia. }
  destruct (iloc_in_range _ rows 0%Z) as [r' [Hr' Hiloc]]; [lia|].
  change (Z.to_nat 0) with 0%nat in Hr'.
  assert (r' = first) by congruence. subst r'.
  unfold App.current_temp. rewrite Hidx, Hiloc. reflexivity.
Qed.

Lemma current_temp_just_before_start_witness :
  App.current_temp Examples.half_minute_table (- (1 # 4)) = inr 190%Q.
Proof.
  apply (current_temp_just_before_start Examples.half_minute_table (- (1 # 4))
           {| Profile.elapsed_minutes := 0; Profile.Temperature := 190 |}).
  - reflexivity.
  - unfold Qlt; simpl; lia.
  - unfold Qlt; simpl; lia.
Defined.

(** X4.  Further before the start time the negative index counts from the
    end of the table: for [t] in (-(k+1)/2, -k/2] with [1 <= k] the lookup
    returns row [len - k] when [k <= len] and raises [IndexError] when
    [len < k]. *)
Theorem current_temp_before_start (rows : list Profile.row) (t : Q) (k : nat) :
  (1 <= k)%nat ->
  (- Z.of_nat (S k) # 2 < t)%Q -> (t <= - Z.of_nat k # 2)%Q ->
  ((k <= List.length rows)%nat ->
   exists r, nth_error rows (List.length rows - k) = Some r
             /\ App.current_temp rows t = inr (Profile.Temperature r))
  /\ ((List.length rows < k)%nat ->
      App.current_temp rows t = inl Py.IndexError).
Proof.
  intros Hk Hlo Hhi.
  apply two_times_half_steps in Hlo. apply two_times_half_steps in Hhi.
  assert (Hint : Py.int (t * 2) = (- Z.of_nat k)%Z).
  { apply int_of_negative_step; [| |lia].
    - replace (- (Z.of_nat k + 1))%Z with (- Z.of_nat (S k))%Z by lia. exact Hlo.
    - exact Hhi. }
  assert (Hidx : App.lookup_index rows t = (- Z.of_nat k)%Z).
  { unfold App.lookup_index. rewrite Hint. lia. }
  unfold App.current_temp. rewrite Hidx. unfold Pandas.iloc.
  assert (Hneg : (- Z.of_nat k <? 0)%Z = true) by (apply Z.ltb_lt; lia).
  rewrite Hneg. split.
  - intros Hle.
    assert (Hin : ((0 <=? Z.of_nat (List.length rows) + - Z.of_nat k)
                   && (Z.of_nat (List.length rows) + - Z.of_nat k
                       <? Z.of_nat (List.length rows)))%Z%bool = true).
    { apply andb_true_iff. split; [apply Z.leb_le|apply Z.ltb_lt]; lia. }
    rewrite Hin.
    replace (Z.to_nat (Z.of_nat (List.length rows) + - Z.of_nat k))
      with (List.length rows - k)%nat by lia.
    destruct (nth_error rows (List.length rows - k)) as [r|] eqn:Hnth.
    + exists r. split; reflexivity.
    + apply nth_error_None in Hnth. lia.
  - intros Hlt.
    assert (Hout : (0 <=? Z.of_nat (List.length rows) + - Z.of_nat k)%Z = false)
      by (apply Z.leb_gt; lia).
    rewrite Hout. reflexivity.
Qed.

Lemma current_temp_before_start_witness :
  (exists r, nth_error Examples.half_minute_table (3 - 2) = Some r
             /\ App.current_temp Examples.half_minute_table (- (1))
                = inr (Profile.Temperature r))
  /\ App.current_temp Examples.half_minute_table (- (2)) = inl Py.IndexError.
Proof.
  split.
  - apply (current_temp_before_start Examples.half_minute_table (- (1)) 2).
    + lia.
    + unfold Qlt; simpl; lia.
    + unfold Qle; simpl; lia.
    + simpl; lia.
  - apply (current_temp_before_start Examples.half_minute_table (- (2)) 4).
    + lia.
    + unfold Qlt; simpl; lia.
    + unfold Qle; simpl; lia.
    + simpl; lia.
Defined.

(** X5.  An empty profile table makes the lookup raise [IndexError] at every
    elapsed time. *)
Theorem current_temp_empty_profile (t : Q) :
  App.current_temp [] t = inl Py.IndexError.
Proof.
  unfold App.current_temp, App.lookup_index, Pandas.iloc. simpl List.length.
  set (i := Z.min (Py.int (t * 2)) (Z.of_nat 0 - 1)).
  assert (Hi : (i < 0)%Z) by (unfold i; lia).
  apply Z.ltb_lt in Hi. rewrite Hi.
  assert (Hout : (0 <=? Z.of_nat 0 + i)%Z = false).
  { apply Z.leb_gt. apply Z.ltb_lt in Hi. lia. }
  rewrite Hout. reflexivity.
Qed.

(** ** What each part of a run touches *)

Lemma generate_profile_frame gen w now s s1 :
  App.generate_profile gen w now s = inr s1 ->
  App.roast_data s1 = App.roast_data s
  /\ App.roast_in_progress s1 = App.roast_in_progress s
  /\ App.start_time s1 = App.start_time s
  /\ (exists p,
        gen (App.bean_type w) (App.roast_level w) (inject_Z (App.charge_temp w))
          (inject_Z (App.development_time w)) = inr p
        /\ App.roast_profile s1 = Some p)
  /\ App.events s1
     = App.events s
         ++ [{| EventHandler.timestamp := now;
                EventHandler.event_type := "Profile Generated";
                EventHandler.details :=
                  (App.bean_type w ++ " "
                     ++ Profile.level_name (App.roast_level w)
                     ++ " profile created")%string |}].
Proof.
  unfold App.generate_profile, Py.bind, Py.ret.
  destruct (gen _ _ _ _) as [e|p]; [discriminate|].
  intros H; injection H as <-. simpl.
  repeat split. exists p. split; reflexivity.
Qed.

(** The session after the Start Roast button of a run (lines 87-91). *)
Lemma start_stage_frame w c s1 :
  App.roast_data (App.start_stage w c s1) = App.roast_data s1
  /\ App.roast_profile (App.start_stage w c s1) = App.roast_profile s1
  /\ (App.start_stage w c s1 = s1
      \/ (App.start_roast_pressed w = true
          /\ App.start_disabled s1 = false
          /\ App.start_stage w c s1
             = App.start_roast w (App.now_start c) (App.now_start_event c) s1)).
Proof.
  unfold App.start_stage, App.press_start, App.button.
  destruct (App.start_roast_pressed w); [|tauto].
  destruct (App.start_disabled s1); [tauto|].
  simpl. repeat split. right. repeat split.
Qed.

(** The session after the Add Event button of a run (lines 93-98). *)
Lemma add_event_stage_frame w c s2 :
  App.roast_data (App.add_event_stage w c s2) = App.roast_data s2
  /\ App.roast_in_progress (App.add_event_stage w c s2)
     = App.roast_in_progress s2
  /\ App.start_time (App.add_event_stage w c s2) = App.start_time s2
  /\ App.roast_profile (App.add_event_stage w c s2) = App.roast_profile s2
  /\ (App.events (App.add_event_stage w c s2) = App.events s2
      \/ App.events (App.add_event_stage w c s2)
         = App.events s2
             ++ [{| EventHandler.timestamp := App.now_operator_event c;
                    EventHandler.event_type := App.event_type w;
                    EventHandler.details := App.event_note w |}]).
Proof.
  unfold App.add_event_stage, App.press_add_event, App.button,
    App.add_operator_event.
  destruct (App.add_event_pressed w); [|tauto].
  destruct (App.not_in_progress s2); [tauto|].
  destruct (App.confirm_event_pressed w); simpl; tauto.
Qed.

(** The session after the End Roast button of a run (lines 100-104). *)
Lemma end_stage_frame w c s3 s4 :
  App.end_stage w c s3 = inr s4 ->
  App.roast_data s4 = App.roast_data s3
  /\ App.start_time s4 = App.start_time s3
  /\ App.roast_profile s4 = App.roast_profile s3
  /\ (s4 = s3
      \/ (App.end_roast_pressed w = true
          /\ App.roast_in_progress s3 = true
          /\ App.end_roast (App.now_end c) (App.now_end_event c) s3 = inr s4
          /\ App.roast_in_progress s4 = false)).
Proof.
  unfold App.end_stage, App.press_end, App.button, App.not_in_progress, Py.ret.
  destruct (App.end_roast_pressed w);
    [|intros H; injection H as <-; tauto].
  destruct (App.roast_in_progress s3) eqn:Hrun; simpl;
    [|intros H; injection H as <-; tauto].
  intros H. pose proof H as Hend. unfold App.end_roast, Py.ret, Py.raise in H.
  destruct (App.start_time s3) as [t0|] eqn:Ht; [|discriminate].
  injection H as <-. simpl. rewrite ?Ht. repeat split.
  right. repeat split. exact Hend.
Qed.

(** The session after the monitoring block of a run (lines 106-125). *)
Lemma monitor_frame now s4 s5 :
  App.monitor now s4 = inr s5 ->
  App.roast_in_progress s5 = App.roast_in_progress s4
  /\ App.start_time s5 = App.start_time s4
  /\ App.roast_profile s5 = App.roast_profile s4
  /\ App.events s5 = App.events s4
  /\ ((App.roast_data s5 = App.roast_data s4
       /\ (App.roast_in_progress s4 = false \/ App.roast_profile s4 = None))
      \/ (exists profile started temp,
             App.roast_in_progress s4 = true
             /\ App.roast_profile s4 = Some profile
             /\ App.start_time s4 = Some started
             /\ App.current_temp (Profile.samples profile)
                  (Py.total_minutes (now - started)) = inr temp
             /\ App.roast_data s5
                = App.roast_data s4
                    ++ [{| App.Time := Py.total_minutes (now - started);
                           App.Temperature := temp;
                           App.Event := "" |}])).
Proof.
  unfold App.monitor, Py.ret, Py.raise, Py.bind.
  destruct (App.roast_in_progress s4) eqn:Hrun;
    [|intros H; injection H as <-; rewrite Hrun; tauto].
  destruct (App.roast_profile s4) as [p|] eqn:Hp;
    [|intros H; injection H as <-; rewrite Hrun, Hp; tauto].
  destruct (App.start_time s4) as [t0|] eqn:Ht; [|discriminate].
  destruct (App.current_temp _ _) as [e|temp] eqn:Hc; [discriminate|].
  intros H; injection H as <-. simpl. rewrite ?Hrun, ?Hp, ?Ht.
  repeat split. right. exists p, t0, temp. repeat split. exact Hc.
Qed.

Lemma clear_events_frame w s5 :
  App.roast_data (App.clear_events w s5) = App.roast_data s5
  /\ App.roast_in_progress (App.clear_events w s5) = App.roast_in_progress s5
  /\ App.start_time (App.clear_events w s5) = App.start_time s5
  /\ App.roast_profile (App.clear_events w s5) = App.roast_profile s5.
Proof.
  unfold App.clear_events. destruct (_ && _); repeat split.
Qed.

(** [run] is the chain of its parts. *)
Lemma run_stages gen w c s :
  App.run gen w c s
  = (s1 <- (if App.generate_profile_pressed w
            then App.generate_profile gen w (App.now_profile_event c) s
            else Py.ret s) ;;
     s4 <- App.end_stage w c
             (App.add_event_stage w c (App.start_stage w c s1)) ;;
     s5 <- App.monitor (App.now_monitor c) s4 ;;
     shown <- App.roast_statistics (App.clear_events w s5)
                (EventHandler.get_events_df (App.events s5)) ;;
     Py.ret (App.clear_events w s5, shown)).
Proof. reflexivity. Qed.

(** A run that does not raise, cut into its parts. *)
Lemma run_inversion gen w c s s' shown :
  App.run gen w c s = inr (s', shown) ->
  exists s1 s4 s5,
    (if App.generate_profile_pressed w
     then App.generate_profile gen w (App.now_profile_event c) s
     else Py.ret s) = inr s1
    /\ App.end_stage w c (App.add_event_stage w c (App.start_stage w c s1))
       = inr s4
    /\ App.monitor (App.now_monitor c) s4 = inr s5
    /\ s' = App.clear_events w s5
    /\ App.roast_statistics s' (EventHandler.get_events_df (App.events s5))
       = inr shown.
Proof.
  rewrite run_stages. unfold Py.bind. intros H.
  destruct (if App.generate_profile_pressed w then _ else _) as [e|s1];
    [discriminate|].
  exists s1.
  destruct (App.end_stage _ _ _) as [e|s4] eqn:H4; [discriminate|].
  destruct (App.monitor _ s4) as [e|s5] eqn:H5; [discriminate|].
  destruct (App.roast_statistics _ _) as [e|out] eqn:H6; [discriminate|].
  unfold Py.ret in H. injection H as <- <-.
  exists s4, s5. split; [reflexivity|]. split; [reflexivity|].
  split; [exact H5|]. split; [reflexivity|exact H6].
Qed.

Lemma start_stage_consistent w c s :
  App.consistent s -> App.consistent (App.start_stage w c s).
Proof.
  intros Hs. unfold App.start_stage.
  destruct (App.start_roast_pressed w); [|exact Hs].
  destruct (App.press_start _ _ _ s) eqn:E; [|exact Hs].
  exact (press_start_consistent _ _ _ _ _ E Hs).
Qed.

Lemma add_event_stage_consistent w c s :
  App.consistent s -> App.consistent (App.add_event_stage w c s).
Proof.
  intros Hs. unfold App.add_event_stage.
  destruct (App.add_event_pressed w); [|exact Hs].
  destruct (App.press_add_event _ _ s) eqn:E; [|exact Hs].
  exact (press_add_event_consistent _ _ _ _ E Hs).
Qed.

Lemma end_stage_consistent w c s s' :
  App.end_stage w c s = inr s' -> App.consistent s -> App.consistent s'.
Proof.
  intros H Hs. destruct (end_stage_frame _ _ _ _ H) as [_ [_ [_ [->|Hend]]]];
    [exact Hs|].
  destruct Hend as [_ [_ [Hend _]]].
  exact (end_roast_consistent _ _ _ _ Hend Hs).
Qed.

Lemma generate_stage_consistent gen w c s s1 :
  (if App.generate_profile_pressed w
   then App.generate_profile gen w (App.now_profile_event c) s
   else Py.ret s) = inr s1 ->
  App.consistent s -> App.consistent s1.
Proof.
  destruct (App.generate_profile_pressed w).
  - apply generate_profile_consistent.
  - unfold Py.ret. intros H; injection H as <-. tauto.
Qed.

(** What the Generate button of a run leaves alone. *)
Lemma generate_stage_frame gen w c s s1 :
  (if App.generate_profile_pressed w
   then App.generate_profile gen w (App.now_profile_event c) s
   else Py.ret s) = inr s1 ->
  App.roast_data s1 = App.roast_data s
  /\ App.roast_in_progress s1 = App.roast_in_progress s
  /\ App.start_time s1 = App.start_time s
  /\ (App.roast_profile s <> None -> App.roast_profile s1 <> None)
  /\ (App.generate_profile_pressed w = false -> s1 = s).
Proof.
  destruct (App.generate_profile_pressed w).
  - intros H. destruct (generate_profile_frame _ _ _ _ _ H)
      as [H1 [H2 [H3 [[p [_ Hp]] _]]]].
    repeat split; try assumption.
    + intros _. rewrite Hp. discriminate.
    + discriminate.
  - unfold Py.ret. intros H; injection H as <-. repeat split; tauto.
Qed.

(** The trace of a run that does not raise: the old trace, with at most one
    new row at its end. *)
Lemma run_trace_extends gen w c s s' shown :
  App.run gen w c s = inr (s', shown) ->
  App.roast_data s' = App.roast_data s
  \/ exists row, App.roast_data s' = App.roast_data s ++ [row].
Proof.
  intros H. destruct (run_inversion _ _ _ _ _ _ H)
    as [s1 [s4 [s5 [H1 [H4 [H5 [-> _]]]]]]].
  destruct (generate_stage_frame _ _ _ _ _ H1) as [D1 _].
  destruct (start_stage_frame w c s1) as [D2 _].
  destruct (add_event_stage_frame w c (App.start_stage w c s1)) as [D3 _].
  destruct (end_stage_frame _ _ _ _ H4) as [D4 _].
  destruct (clear_events_frame w s5) as [D6 _].
  destruct (monitor_frame _ _ _ H5) as [_ [_ [_ [_ [[D5 _]|D5]]]]].
  - left. congruence.
  - destruct D5 as [p [t0 [temp [_ [_ [_ [_ D5]]]]]]].
    right. rewrite D6, D5, D4, D3, D2, D1. eexists. reflexivity.
Qed.

(** X6.  Every run that does not raise keeps the session invariant: a roast
    in progress has a start time and a profile, and a session with a live
    trace has a start time. *)
Theorem run_keeps_invariant gen w c s s' shown :
  App.consistent s ->
  App.run gen w c s = inr (s', shown) ->
  App.consistent s'.
Proof.
  intros Hs H. exact (run_consistent _ _ _ _ _ _ H Hs).
Qed.

Lemma run_keeps_invariant_witness :
  App.consistent Examples.after_one_roast.
Proof.
  assert (H : exists s shown,
             App.run Examples.generator (Examples.press false false true)
               (Examples.at_time (11 * Examples.minute)) s
             = inr (Examples.after_one_roast, shown)
             /\ App.consistent s).
  { destruct (Examples.replay
                [(Examples.press true false false, Examples.at_time 0);
                 (Examples.press false true false,
                  Examples.at_time Examples.minute)] App.initial)
      as [e|s] eqn:E; [vm_compute in E; discriminate|].
    exists s.
    destruct (App.run Examples.generator (Examples.press false false true)
                (Examples.at_time (11 * Examples.minute)) s)
      as [e|[s' shown]] eqn:R.
    - exfalso. vm_compute in E. injection E as <-. vm_compute in R. discriminate.
    - exists shown. split.
      + vm_compute in E. injection E as <-. vm_compute in R.
        injection R as <- <-. vm_compute. reflexivity.
      + exact (replay_consistent _ _ _ E initial_consistent). }
  destruct H as [s [shown [Hrun Hs]]].
  exact (run_keeps_invariant _ _ _ _ _ _ Hs Hrun).
Defined.

(** X7.  The live trace is append-only: after a run that does not raise the
    session is either in progress, and exactly one row (with an empty event
    label) was appended to the trace, or not in progress, and the trace is as
    it was.  No run removes a row, not even the one that starts a second
    roast. *)
Theorem run_trace_append_only gen w c s s' shown :
  App.consistent s ->
  App.run gen w c s = inr (s', shown) ->
  (App.roast_in_progress s' = true ->
   exists row, App.roast_data s' = App.roast_data s ++ [row]
               /\ App.Event row = ""%string)
  /\ (App.roast_in_progress s' = false ->
      App.roast_data s' = App.roast_data s).
Proof.
  intros Hs H. destruct (run_inversion _ _ _ _ _ _ H)
    as [s1 [s4 [s5 [H1 [H4 [H5 [-> _]]]]]]].
  pose proof (generate_stage_consistent _ _ _ _ _ H1 Hs) as C1.
  pose proof (end_stage_consistent _ _ _ _ H4
                (add_event_stage_consistent w c _
                   (start_stage_consistent w c _ C1))) as C4.
  destruct (generate_stage_frame _ _ _ _ _ H1) as [D1 _].
  destruct (start_stage_frame w c s1) as [D2 _].
  destruct (add_event_stage_frame w c (App.start_stage w c s1)) as [D3 _].
  destruct (end_stage_frame _ _ _ _ H4) as [D4 _].
  destruct (clear_events_frame w s5) as [D6 [R6 _]].
  destruct (monitor_frame _ _ _ H5) as [R5 [_ [_ [_ D5]]]].
  rewrite R6, R5, D6. split.
  - intros Hrun. destruct D5 as [[_ [Hoff|Hnone]]|D5].
    + congruence.
    + destruct C4 as [C4 _]. destruct (C4 Hrun) as [_ Hp]. congruence.
    + destruct D5 as [p [t0 [temp [_ [_ [_ [_ D5]]]]]]].
      rewrite D5, D4, D3, D2, D1. eexists. split; reflexivity.
  - intros Hoff. destruct D5 as [[D5 _]|D5]; [congruence|].
    destruct D5 as [p [t0 [temp [Hrun _]]]]. congruence.
Qed.

Lemma run_trace_append_only_witness :
  exists s' shown row,
    App.run Examples.generator (Examples.press false true false)
      (Examples.at_time Examples.minute) Examples.ready = inr (s', shown)
    /\ App.roast_in_progress s' = true
    /\ App.roast_data s' = App.roast_data Examples.ready ++ [row].
Proof.
  destruct (App.run Examples.generator (Examples.press false true false)
              (Examples.at_time Examples.minute) Examples.ready)
    as [e|[s' shown]] eqn:R; [vm_compute in R; discriminate|].
  assert (Hc : App.consistent Examples.ready).
  { split; simpl; intros H; [discriminate|congruence]. }
  assert (Hrun : App.roast_in_progress s' = true).
  { vm_compute in R. injection R as <- _. reflexivity. }
  destruct (run_trace_append_only _ _ _ _ _ _ Hc R) as [H _].
  destruct (H Hrun) as [row [Hrow _]].
  exists s', shown, row. repeat split; assumption.
Defined.

Lemma total_minutes_nonneg (us : Z) : (0 <= us)%Z -> (0 <= Py.total_minutes us)%Q.
Proof. intros H. unfold Py.total_minutes, Qle. simpl. lia. Qed.

(** In a consistent session the statistics block does not raise. *)
Lemma roast_statistics_returns (s : App.state)
    (events_df : list EventHandler.event) :
  App.consistent s ->
  exists shown, App.roast_statistics s events_df = inr shown.
Proof.
  intros [_ Hdata]. unfold App.roast_statistics.
  destruct (App.roast_data s) as [|row rest] eqn:Hrows;
    [eexists; reflexivity|].
  simpl negb. cbv iota.
  rewrite (iloc_last _ _ 0%Q) by discriminate.
  unfold Py.bind.
  destruct (App.start_time s) as [t0|] eqn:Ht;
    [|exfalso; apply Hdata; [discriminate|reflexivity]].
  unfold App.time_to_first_crack.
  destruct (negb (Pandas.empty events_df)
            && existsb (EventHandler.is_kind "First Crack") events_df) eqn:Hex;
    [|eexists; reflexivity].
  apply andb_true_iff in Hex. destruct Hex as [_ Hex].
  apply existsb_exists in Hex. destruct Hex as [e [He Hk]].
  assert (Hf : In (EventHandler.timestamp e)
                 (map EventHandler.timestamp
                    (filter (EventHandler.is_kind "First Crack") events_df))).
  { apply in_map. apply filter_In. split; assumption. }
  destruct (map EventHandler.timestamp _) as [|t1 ts]; [destruct Hf|].
  eexists. reflexivity.
Qed.

(** X8.  A run cannot crash on a well-formed session: if the session is
    consistent, the stored profile (if any) has at least one row, a pressed
    Generate button gets a profile with at least one row from the generator,
    and the clock read by the monitor is not before the start time (the
    stored one and the one a Start press of this run sets), then the run
    raises neither [TypeError] nor [IndexError] and returns a session. *)
Theorem run_never_raises gen w c s :
  App.consistent s ->
  (forall p, App.roast_profile s = Some p -> Profile.samples p <> []) ->
  (App.generate_profile_pressed w = true ->
   exists p,
     gen (App.bean_type w) (App.roast_level w) (inject_Z (App.charge_temp w))
       (inject_Z (App.development_time w)) = inr p
     /\ Profile.samples p <> []) ->
  (forall started, App.start_time s = Some started ->
                   (started <= App.now_monitor c)%Z) ->
  (App.now_start c <= App.now_monitor c)%Z ->
  exists s' shown, App.run gen w c s = inr (s', shown).
Proof.
  intros Hs Hprofile Hgen Hclock Hstart.
  rewrite run_stages.
  (* the Generate button *)
  assert (H1 : exists s1,
             (if App.generate_profile_pressed w
              then App.generate_profile gen w (App.now_profile_event c) s
              else Py.ret s) = inr s1
             /\ (forall p, App.roast_profile s1 = Some p ->
                           Profile.samples p <> [])).
  { destruct (App.generate_profile_pressed w).
    - destruct (Hgen eq_refl) as [p [Hp Hne]].
      unfold App.generate_profile, Py.bind. rewrite Hp.
      eexists. split; [reflexivity|]. simpl. intros q Hq.
      injection Hq as <-. exact Hne.
    - exists s. split; [reflexivity|exact Hprofile]. }
  destruct H1 as [s1 [H1 Hprofile1]]. rewrite H1. unfold Py.bind at 1.
  pose proof (generate_stage_consistent _ _ _ _ _ H1 Hs) as C1.
  destruct (generate_stage_frame _ _ _ _ _ H1) as [_ [_ [T1 _]]].
  (* the control panel *)
  set (s2 := App.start_stage w c s1).
  pose proof (start_stage_consistent w c s1 C1) as C2. fold s2 in C2.
  destruct (start_stage_frame w c s1) as [_ [P2 E2]]. fold s2 in P2, E2.
  assert (T2 : forall started, App.start_time s2 = Some started ->
                               (started <= App.now_monitor c)%Z).
  { intros started Ht. destruct E2 as [E2|[_ [_ E2]]]; rewrite E2 in Ht.
    - apply Hclock. congruence.
    - simpl in Ht. injection Ht as <-. exact Hstart. }
  set (s3 := App.add_event_stage w c s2).
  pose proof (add_event_stage_consistent w c s2 C2) as C3. fold s3 in C3.
  destruct (add_event_stage_frame w c s2) as [_ [_ [T3 [P3 _]]]].
  fold s3 in T3, P3.
  assert (H4 : exists s4, App.end_stage w c s3 = inr s4).
  { unfold App.end_stage, App.press_end, App.button, App.not_in_progress.
    destruct (App.end_roast_pressed w); [|eexists; reflexivity].
    destruct (App.roast_in_progress s3) eqn:Hrun; simpl;
      [|eexists; reflexivity].
    destruct C3 as [C3 _]. destruct (C3 Hrun) as [Ht _].
    unfold App.end_roast.
    destruct (App.start_time s3); [eexists; reflexivity|congruence]. }
  destruct H4 as [s4 H4]. rewrite H4. unfold Py.bind at 1.
  pose proof (end_stage_consistent _ _ _ _ H4 C3) as C4.
  destruct (end_stage_frame _ _ _ _ H4) as [_ [T4 [P4 _]]].
  (* the monitor *)
  assert (H5 : exists s5, App.monitor (App.now_monitor c) s4 = inr s5).
  { unfold App.monitor.
    destruct (App.roast_in_progress s4) eqn:Hrun; [|eexists; reflexivity].
    destruct (App.roast_profile s4) as [p|] eqn:Hp; [|eexists; reflexivity].
    destruct (App.start_time s4) as [t0|] eqn:Ht.
    - assert (Hne : Profile.samples p <> []).
      { apply Hprofile1. congruence. }
      assert (Hle : (t0 <= App.now_monitor c)%Z).
      { apply T2. congruence. }
      destruct (current_temp_reads_index (Profile.samples p)
                  (Py.total_minutes (App.now_monitor c - t0)) Hne)
        as [r [_ Hr]]; [apply total_minutes_nonneg; lia|].
      unfold Py.bind. rewrite Hr. eexists. reflexivity.
    - destruct C4 as [C4 _]. destruct (C4 Hrun) as [Hc _]. congruence. }
  destruct H5 as [s5 H5]. rewrite H5. unfold Py.bind at 1.
  pose proof (monitor_consistent _ _ _ H5 C4) as C5.
  (* the statistics *)
  destruct (roast_statistics_returns (App.clear_events w s5)
              (EventHandler.get_events_df (App.events s5))
              (clear_events_consistent w s5 C5)) as [shown Hshown].
  rewrite Hshown. eexists. eexists. reflexivity.
Qed.

Lemma ready_consistent : App.consistent Examples.ready.
Proof. split; simpl; intros H; [discriminate|congruence]. Qed.

Lemma run_never_raises_witness :
  exists s' shown,
    App.run Examples.generator (Examples.press false true false)
      (Examples.at_time Examples.minute) Examples.ready = inr (s', shown).
Proof.
  apply (run_never_raises Examples.generator (Examples.press false true false)
           (Examples.at_time Examples.minute) Examples.ready).
  - exact ready_consistent.
  - intros p Hp. injection Hp as <-. discriminate.
  - discriminate.
  - discriminate.
  - simpl. lia.
Defined.

Lemma max_app (series extra : list Q) (m : Q) :
  Pandas.max series = Some m ->
  exists m', Pandas.max (series ++ extra) = Some m' /\ (m <= m')%Q.
Proof.
  revert m. induction series as [|x rest IH]; intros m; [discriminate|].
  simpl. destruct (Pandas.max rest) as [mr|] eqn:Hr.
  - destruct (IH mr eq_refl) as [mr' [Hr' Hle]]. rewrite Hr'.
    intros H; injection H as <-.
    eexists. split; [reflexivity|].
    destruct (Qle_bool x mr) eqn:E1; destruct (Qle_bool x mr') eqn:E2;
      rewrite ?Qle_bool_iff in *; rewrite ?Qle_bool_false_iff in *;
      lra.
  - intros H; injection H as <-.
    destruct (Pandas.max (rest ++ extra)) as [mr'|].
    + eexists. split; [reflexivity|].
      destruct (Qle_bool x mr') eqn:E; [apply Qle_bool_iff; exact E|apply Qle_refl].
    + eexists. split; [reflexivity|apply Qle_refl].
Qed.

(** X9.  The peak temperature never goes down: after a run that does not
    raise, the maximum over the trace is at least what it was before. *)
Theorem run_peak_never_decreases gen w c s s' shown peak :
  App.run gen w c s = inr (s', shown) ->
  Pandas.max (map App.Temperature (App.roast_data s)) = Some peak ->
  exists peak',
    Pandas.max (map App.Temperature (App.roast_data s')) = Some peak'
    /\ (peak <= peak')%Q.
Proof.
  intros H Hpeak.
  destruct (run_trace_extends _ _ _ _ _ _ H) as [->|[row ->]].
  - exists peak. split; [exact Hpeak|apply Qle_refl].
  - rewrite map_app. apply max_app. exact Hpeak.
Qed.

Lemma run_peak_never_decreases_witness :
  exists s' shown peak',
    App.run Examples.generator (Examples.press false true false)
      (Examples.at_time (12 * Examples.minute)) Examples.after_one_roast
    = inr (s', shown)
    /\ Pandas.max (map App.Temperature (App.roast_data s')) = Some peak'
    /\ (2801664000 # 14745600 <= peak')%Q.
Proof.
  destruct (App.run Examples.generator (Examples.press false true false)
              (Examples.at_time (12 * Examples.minute)) Examples.after_one_roast)
    as [e|[s' shown]] eqn:R; [vm_compute in R; discriminate|].
  destruct (run_peak_never_decreases _ _ _ _ _ _ (2801664000 # 14745600) R)
    as [peak' [H1 H2]]; [vm_compute; reflexivity|].
  exists s', shown, peak'. repeat split; assumption.
Defined.

(** X10.  Time alone changes nothing but the trace: in a run with no button
    pressed, however late the clock, the roast flag, the start time, the
    profile and the event log come out as they went in.  A roast that has
    outlasted its profile stays in progress until End Roast is pressed. *)
Theorem run_without_press_keeps_session gen w c s s' shown :
  App.generate_profile_pressed w = false ->
  App.start_roast_pressed w = false ->
  App.add_event_pressed w = false ->
  App.end_roast_pressed w = false ->
  App.clear_events_pressed w = false ->
  App.run gen w c s = inr (s', shown) ->
  App.roast_in_progress s' = App.roast_in_progress s
  /\ App.start_time s' = App.start_time s
  /\ App.roast_profile s' = App.roast_profile s
  /\ App.events s' = App.events s.
Proof.
  intros Hg Hs Ha He Hc H. destruct (run_inversion _ _ _ _ _ _ H)
    as [s1 [s4 [s5 [H1 [H4 [H5 [-> _]]]]]]].
  rewrite Hg in H1. unfold Py.ret in H1. injection H1 as <-.
  unfold App.end_stage, App.add_event_stage, App.start_stage in H4.
  rewrite Hs, Ha, He in H4. unfold Py.ret in H4. injection H4 as <-.
  destruct (monitor_frame _ _ _ H5) as [R [T [P [E _]]]].
  unfold App.clear_events. rewrite Hc, andb_false_r.
  repeat split; assumption.
Qed.

Lemma run_without_press_keeps_session_witness :
  exists s' shown,
    App.run Examples.generator Examples.idle_widgets
      (Examples.at_time (90 * Examples.minute)) Examples.roasting
    = inr (s', shown)
    /\ App.roast_in_progress s' = true
    /\ App.start_time s' = Some 0%Z.
Proof.
  destruct (App.run Examples.generator Examples.idle_widgets
              (Examples.at_time (90 * Examples.minute)) Examples.roasting)
    as [e|[s' shown]] eqn:R; [vm_compute in R; discriminate|].
  destruct (run_without_press_keeps_session Examples.generator
              Examples.idle_widgets (Examples.at_time (90 * Examples.minute))
              Examples.roasting s' shown eq_refl eq_refl eq_refl eq_refl
              eq_refl R) as [H1 [H2 _]].
  exists s', shown. split; [reflexivity|]. split; [exact H1|exact H2].
Defined.

(** X11.  Nothing un-starts a session or takes its profile away: after a run
    that does not raise, a start time that was set is still set (it is the
    old one or the time of this run's Start press), and a profile that was
    present is still present. *)
Theorem run_keeps_start_time_and_profile gen w c s s' shown :
  App.run gen w c s = inr (s', shown) ->
  (App.start_time s' = App.start_time s
   \/ App.start_time s' = Some (App.now_start c))
  /\ (App.roast_profile s <> None -> App.roast_profile s' <> None).
Proof.
  intros H. destruct (run_inversion _ _ _ _ _ _ H)
    as [s1 [s4 [s5 [H1 [H4 [H5 [-> _]]]]]]].
  destruct (generate_stage_frame _ _ _ _ _ H1) as [_ [_ [T1 [P1 _]]]].
  destruct (start_stage_frame w c s1) as [_ [P2 E2]].
  destruct (add_event_stage_frame w c (App.start_stage w c s1))
    as [_ [_ [T3 [P3 _]]]].
  destruct (end_stage_frame _ _ _ _ H4) as [_ [T4 [P4 _]]].
  destruct (monitor_frame _ _ _ H5) as [_ [T5 [P5 _]]].
  destruct (clear_events_frame w s5) as [_ [_ [T6 P6]]].
  split.
  - rewrite T6, T5, T4, T3.
    destruct E2 as [E2|[_ [_ E2]]]; rewrite E2.
    + left. exact T1.
    + right. reflexivity.
  - intros Hp. rewrite P6, P5, P4, P3, P2. exact (P1 Hp).
Qed.

Lemma run_keeps_start_time_and_profile_witness :
  App.roast_profile Examples.after_one_roast <> None.
Proof.
  assert (H : exists s shown,
             App.run Examples.generator (Examples.press false false true)
               (Examples.at_time (11 * Examples.minute)) s
             = inr (Examples.after_one_roast, shown)
             /\ App.roast_profile s <> None).
  { destruct (Examples.replay
                [(Examples.press true false false, Examples.at_time 0);
                 (Examples.press false true false,
                  Examples.at_time Examples.minute)] App.initial)
      as [e|s] eqn:E; [vm_compute in E; discriminate|].
    exists s.
    destruct (App.run Examples.generator (Examples.press false false true)
                (Examples.at_time (11 * Examples.minute)) s)
      as [e|[s' shown]] eqn:R.
    - exfalso. vm_compute in E. injection E as <-. vm_compute in R. discriminate.
    - exists shown. split.
      + vm_compute in E. injection E as <-. vm_compute in R.
        injection R as <- <-. vm_compute. reflexivity.
      + vm_compute in E. injection E as <-. discriminate. }
  destruct H as [s [shown [Hrun Hp]]].
  destruct (run_keeps_start_time_and_profile _ _ _ _ _ _ Hrun) as [_ H].
  exact (H Hp).
Defined.

(** X12.  The run in which End Roast is pressed during a roast takes no
    sample: the roast flag is cleared before the monitoring block, so the
    trace and the start time come out unchanged and the session is no longer
    in progress. *)
Theorem end_run_takes_no_sample gen w c s s' shown :
  App.roast_in_progress s = true ->
  App.end_roast_pressed w = true ->
  App.run gen w c s = inr (s', shown) ->
  App.roast_in_progress s' = false
  /\ App.roast_data s' = App.roast_data s
  /\ App.start_time s' = App.start_time s.
Proof.
  intros Hrun Hend H. destruct (run_inversion _ _ _ _ _ _ H)
    as [s1 [s4 [s5 [H1 [H4 [H5 [-> _]]]]]]].
  destruct (generate_stage_frame _ _ _ _ _ H1) as [D1 [R1 [T1 _]]].
  assert (E2 : App.start_stage w c s1 = s1).
  { unfold App.start_stage, App.press_start, App.button, App.start_disabled.
    rewrite R1, Hrun. simpl. destruct (App.start_roast_pressed w); reflexivity. }
  rewrite E2 in H4.
  destruct (add_event_stage_frame w c s1) as [D3 [R3 [T3 _]]].
  destruct (end_stage_frame _ _ _ _ H4) as [D4 [T4 [_ E4]]].
  assert (R4 : App.roast_in_progress s4 = false).
  { destruct E4 as [E4|[_ [_ [_ E4]]]]; [|exact E4].
    exfalso. subst s4. revert H4.
    unfold App.end_stage, App.press_end, App.button, App.not_in_progress.
    rewrite Hend, R3, R1, Hrun. simpl.
    unfold App.end_roast, Py.ret, Py.raise.
    destruct (App.start_time (App.add_event_stage w c s1)); [|discriminate].
    intros E. injection E as E.
    apply (f_equal App.roast_in_progress) in E. simpl in E.
    rewrite R3, R1, Hrun in E. discriminate. }
  destruct (monitor_frame _ _ _ H5) as [R5 [T5 [_ [_ D5]]]].
  destruct (clear_events_frame w s5) as [D6 [R6 [T6 _]]].
  split; [congruence|]. split; [|congruence].
  destruct D5 as [[D5 _]|[p [t0 [temp [Hon _]]]]]; congruence.
Qed.

Lemma end_run_takes_no_sample_witness :
  exists s' shown,
    App.run Examples.generator (Examples.press false false true)
      (Examples.at_time (10 * Examples.minute)) Examples.roasting
    = inr (s', shown)
    /\ App.roast_in_progress s' = false
    /\ App.roast_data s' = [].
Proof.
  destruct (App.run Examples.generator (Examples.press false false true)
              (Examples.at_time (10 * Examples.minute)) Examples.roasting)
    as [e|[s' shown]] eqn:R; [vm_compute in R; discriminate|].
  destruct (end_run_takes_no_sample Examples.generator
              (Examples.press false false true)
              (Examples.at_time (10 * Examples.minute)) Examples.roasting
              s' shown eq_refl eq_refl R) as [H1 [H2 _]].
  exists s', shown. split; [reflexivity|]. split; [exact H1|exact H2].
Defined.

(** X13.  The run in which Start Roast is accepted already takes the first
    sample: with a profile present, no roast in progress, Start Roast pressed
    and End Roast not, a run that does not raise leaves the session in
    progress with the start time read at line 90, and appends one row whose
    time is the clock of the monitoring block minus that start time and whose
    temperature is the lookup at that time. *)
Theorem start_run_takes_first_sample gen w c s s' shown profile :
  App.roast_in_progress s = false ->
  App.roast_profile s = Some profile ->
  App.generate_profile_pressed w = false ->
  App.start_roast_pressed w = true ->
  App.end_roast_pressed w = false ->
  App.run gen w c s = inr (s', shown) ->
  App.roast_in_progress s' = true
  /\ App.start_time s' = Some (App.now_start c)
  /\ exists temp,
      App.current_temp (Profile.samples profile)
        (Py.total_minutes (App.now_monitor c - App.now_start c)) = inr temp
      /\ App.roast_data s'
         = App.roast_data s
             ++ [{| App.Time :=
                      Py.total_minutes (App.now_monitor c - App.now_start c);
                    App.Temperature := temp;
                    App.Event := "" |}].
Proof.
  intros Hoff Hp Hg Hs He H. destruct (run_inversion _ _ _ _ _ _ H)
    as [s1 [s4 [s5 [H1 [H4 [H5 [-> _]]]]]]].
  rewrite Hg in H1. unfold Py.ret in H1. injection H1 as <-.
  assert (E2 : App.start_stage w c s
               = App.start_roast w (App.now_start c) (App.now_start_event c) s).
  { unfold App.start_stage, App.press_start, App.button, App.start_disabled.
    rewrite Hs, Hoff, Hp. reflexivity. }
  rewrite E2 in H4.
  set (s2 := App.start_roast w (App.now_start c) (App.now_start_event c) s) in *.
  destruct (add_event_stage_frame w c s2) as [D3 [R3 [T3 [P3 _]]]].
  unfold App.end_stage in H4. rewrite He in H4. unfold Py.ret in H4.
  injection H4 as <-.
  destruct (monitor_frame _ _ _ H5) as [R5 [T5 [_ [_ D5]]]].
  destruct (clear_events_frame w s5) as [D6 [R6 [T6 _]]].
  rewrite R6, R5, R3, T6, T5, T3, D6.
  split; [reflexivity|]. split; [reflexivity|].
  destruct D5 as [[_ [Hc|Hc]]|[p [t0 [temp [_ [Hp' [Ht [Hc D5]]]]]]]].
  - rewrite R3 in Hc. discriminate.
  - rewrite P3 in Hc. unfold s2 in Hc. simpl in Hc. congruence.
  - rewrite P3 in Hp'. rewrite T3 in Ht. unfold s2 in Hp', Ht.
    simpl in Hp', Ht. injection Ht as <-.
    assert (p = profile) by congruence. subst p.
    exists temp. split; [exact Hc|]. rewrite D5, D3. reflexivity.
Qed.

Lemma start_run_takes_first_sample_witness :
  exists s' shown temp,
    App.run Examples.generator (Examples.press false true false)
      (Examples.at_time Examples.minute) Examples.ready = inr (s', shown)
    /\ App.start_time s' = Some Examples.minute
    /\ App.current_temp Examples.half_minute_table
         (Py.total_minutes (Examples.minute - Examples.minute)) = inr temp
    /\ List.length (App.roast_data s') = 1%nat.
Proof.
  destruct (App.run Examples.generator (Examples.press false true false)
              (Examples.at_time Examples.minute) Examples.ready)
    as [e|[s' shown]] eqn:R; [vm_compute in R; discriminate|].
  destruct (start_run_takes_first_sample Examples.generator
              (Examples.press false true false)
              (Examples.at_time Examples.minute) Examples.ready s' shown
              (Examples.profile_of Examples.half_minute_table)
              eq_refl eq_refl eq_refl eq_refl eq_refl R)
    as [_ [H2 [temp [H3 H4]]]].
  exists s', shown, temp. split; [reflexivity|]. split; [exact H2|].
  split; [exact H3|]. rewrite H4. reflexivity.
Defined.

(** ** The event log across runs *)

(** The time to first crack is taken from the earliest "First Crack" row of
    the log. *)
Lemma time_to_first_crack_of_first (before after : list EventHandler.event)
    (crack : EventHandler.event) (started : Z) :
  (forall e, In e before -> EventHandler.event_type e <> "First Crack"%string) ->
  EventHandler.event_type crack = "First Crack"%string ->
  App.time_to_first_crack (before ++ crack :: after) (Some started)
  = inr (Some (Py.total_minutes (EventHandler.timestamp crack - started))).
Proof.
  intros Hbefore Hcrack. unfold App.time_to_first_crack.
  destruct (filter_none _ _ Hbefore) as [Hfilter _].
  apply is_kind_true in Hcrack.
  assert (Hex : existsb (EventHandler.is_kind "First Crack")
                  (before ++ crack :: after) = true).
  { apply existsb_exists. exists crack. split; [|exact Hcrack].
    apply in_or_app. right. left. reflexivity. }
  assert (Hne : Pandas.empty (before ++ crack :: after) = false)
    by (destruct before; reflexivity).
  rewrite Hex, Hne. simpl andb. cbv iota.
  rewrite filter_app, Hfilter. simpl. rewrite Hcrack. reflexivity.
Qed.

(** X14.  Starting a new roast keeps the old log, so a "First Crack" left in
    it from an earlier roast is still the first one: the time to first crack
    of the new roast is computed from that old event against the new start
    time, and is negative. *)
Theorem restart_gives_negative_first_crack (w : App.widgets)
    (now now_event : Z) (s s' : App.state)
    (before after : list EventHandler.event) (crack : EventHandler.event) :
  App.events s = before ++ crack :: after ->
  (forall e, In e before -> EventHandler.event_type e <> "First Crack"%string) ->
  EventHandler.event_type crack = "First Crack"%string ->
  (EventHandler.timestamp crack < now)%Z ->
  App.press_start w now now_event s = Some s' ->
  exists minutes,
    App.time_to_first_crack (EventHandler.get_events_df (App.events s'))
      (App.start_time s') = inr (Some minutes)
    /\ (minutes < 0)%Q.
Proof.
  intros Hlog Hbefore Hcrack Hlt Hpress.
  unfold App.press_start, App.button in Hpress.
  destruct (App.start_disabled s); [discriminate|].
  injection Hpress as <-.
  unfold EventHandler.get_events_df. simpl.
  unfold EventHandler.add_event. rewrite Hlog, <- app_assoc. simpl.
  rewrite (time_to_first_crack_of_first before _ crack now Hbefore Hcrack).
  eexists. split; [reflexivity|].
  unfold Py.total_minutes, Qlt. simpl. lia.
Qed.

Lemma restart_gives_negative_first_crack_witness :
  exists s' minutes,
    App.press_start Examples.idle_widgets (20 * Examples.minute)
      (20 * Examples.minute)
      (App.set_events (App.events Examples.cracked) Examples.ready) = Some s'
    /\ App.time_to_first_crack (App.events s') (App.start_time s')
       = inr (Some minutes)
    /\ (minutes < 0)%Q.
Proof.
  eexists.
  destruct (restart_gives_negative_first_crack Examples.idle_widgets
              (20 * Examples.minute) (20 * Examples.minute)
              (App.set_events (App.events Examples.cracked) Examples.ready)
              (App.start_roast Examples.idle_widgets (20 * Examples.minute)
                 (20 * Examples.minute)
                 (App.set_events (App.events Examples.cracked) Examples.ready))
              [{| EventHandler.timestamp := 0;
                  EventHandler.event_type := "Roast Started";
                  EventHandler.details := "Batch: 250g Arabica from Colombia" |}]
              []
              {| EventHandler.timestamp := 8 * Examples.minute;
                 EventHandler.event_type := "First Crack";
                 EventHandler.details := "" |})
    as [minutes [H1 H2]].
  - reflexivity.
  - intros e [<-|[]]. discriminate.
  - reflexivity.
  - reflexivity.
  - reflexivity.
  - exists minutes. split; [reflexivity|]. split; [exact H1|exact H2].
Defined.

(** X15.  An operator event reaches the log only during a roast and only
    when Confirm Event is pressed in the same run as Add Event: outside a
    roast the press is refused; during one, without the confirmation, the
    session comes out as it went in; with it, one event of the selected kind
    and note is appended and the session state is untouched. *)
Theorem press_add_event_spec (w : App.widgets) (now : Z) (s : App.state) :
  (App.roast_in_progress s = false -> App.press_add_event w now s = None)
  /\ (App.roast_in_progress s = true ->
      App.confirm_event_pressed w = false ->
      App.press_add_event w now s = Some s)
  /\ (App.roast_in_progress s = true ->
      App.confirm_event_pressed w = true ->
      exists s',
        App.press_add_event w now s = Some s'
        /\ App.events s'
           = App.events s
               ++ [{| EventHandler.timestamp := now;
                      EventHandler.event_type := App.event_type w;
                      EventHandler.details := App.event_note w |}]
        /\ App.roast_data s' = App.roast_data s
        /\ App.roast_in_progress s' = true
        /\ App.start_time s' = App.start_time s
        /\ App.roast_profile s' = App.roast_profile s).
Proof.
  unfold App.press_add_event, App.button, App.not_in_progress,
    App.add_operator_event.
  split; [|split].
  - intros ->. reflexivity.
  - intros -> ->. reflexivity.
  - intros Hrun ->. rewrite Hrun. simpl.
    eexists. split; [reflexivity|]. simpl. rewrite Hrun. repeat split.
Qed.

Lemma press_add_event_spec_witness :
  App.press_add_event Examples.idle_widgets 5 Examples.ready = None
  /\ App.press_add_event Examples.idle_widgets 5 Examples.roasting
     = Some Examples.roasting.
Proof.
  destruct (press_add_event_spec Examples.idle_widgets 5 Examples.ready)
    as [H1 _].
  destruct (press_add_event_spec Examples.idle_widgets 5 Examples.roasting)
    as [_ [H2 _]].
  split; [exact (H1 eq_refl)|exact (H2 eq_refl eq_refl)].
Defined.

(** What the statistics block returns, when it returns. *)
Lemma roast_statistics_inversion (s : App.state)
    (events_df : list EventHandler.event) (shown : option App.statistics) :
  App.roast_statistics s events_df = inr shown ->
  (App.roast_data s = [] /\ shown = None)
  \/ (App.roast_data s <> []
      /\ exists st,
          shown = Some st
          /\ App.latest_temp st
             = List.last (map App.Temperature (App.roast_data s)) 0%Q
          /\ App.max_temp st
             = Pandas.max (map App.Temperature (App.roast_data s))
          /\ App.time_to_first_crack events_df (App.start_time s)
             = inr (App.first_crack st)).
Proof.
  unfold App.roast_statistics.
  destruct (App.roast_data s) as [|row rest] eqn:Hrows.
  - simpl. unfold Py.ret. intros H; injection H as <-. left. split; reflexivity.
  - simpl negb. cbv iota. rewrite (iloc_last _ _ 0%Q) by discriminate.
    unfold Py.bind, Py.ret.
    destruct (App.time_to_first_crack events_df (App.start_time s))
      as [e|crack]; [discriminate|].
    intros H; injection H as <-. right. split; [discriminate|].
    eexists. repeat split.
Qed.

(** X16.  In the run that clears the log the statistics are still drawn from
    the log as it was read before the Clear Events button: with only that
    button pressed the log comes out empty, and the time to first crack that
    is shown is the one of the old log. *)
Theorem clear_run_shows_old_log gen w c s s' st :
  App.generate_profile_pressed w = false ->
  App.start_roast_pressed w = false ->
  App.add_event_pressed w = false ->
  App.end_roast_pressed w = false ->
  App.clear_events_pressed w = true ->
  App.run gen w c s = inr (s', Some st) ->
  App.events s' = []
  /\ App.time_to_first_crack (App.events s) (App.start_time s)
     = inr (App.first_crack st).
Proof.
  intros Hg Hs Ha He Hc H. destruct (run_inversion _ _ _ _ _ _ H)
    as [s1 [s4 [s5 [H1 [H4 [H5 [-> Hshown]]]]]]].
  rewrite Hg in H1. unfold Py.ret in H1. injection H1 as <-.
  unfold App.end_stage, App.add_event_stage, App.start_stage in H4.
  rewrite Hs, Ha, He in H4. unfold Py.ret in H4. injection H4 as <-.
  destruct (monitor_frame _ _ _ H5) as [_ [T5 [_ [E5 _]]]].
  destruct (clear_events_frame w s5) as [_ [_ [T6 _]]].
  split.
  - unfold App.clear_events, EventHandler.get_events_df. rewrite Hc.
    destruct (App.events s5) eqn:E; simpl; [exact E|reflexivity].
  - destruct (roast_statistics_inversion _ _ _ Hshown)
      as [[_ Hnone]|[_ [st' [Hst [_ [_ Hcrack]]]]]]; [discriminate|].
    injection Hst as <-.
    unfold EventHandler.get_events_df in Hcrack.
    rewrite T6, T5, E5 in Hcrack. exact Hcrack.
Qed.

Lemma clear_run_shows_old_log_witness :
  exists s' st,
    App.run Examples.generator Examples.clear_pressed
      (Examples.at_time (9 * Examples.minute)) Examples.cracked
    = inr (s', Some st)
    /\ App.events s' = []
    /\ App.time_to_first_crack (App.events Examples.cracked)
         (App.start_time Examples.cracked) = inr (App.first_crack st).
Proof.
  destruct (App.run Examples.generator Examples.clear_pressed
              (Examples.at_time (9 * Examples.minute)) Examples.cracked)
    as [e|[s' [st|]]] eqn:R;
    [vm_compute in R; discriminate| |vm_compute in R; discriminate].
  destruct (clear_run_shows_old_log Examples.generator Examples.clear_pressed
              (Examples.at_time (9 * Examples.minute)) Examples.cracked s' st
              eq_refl eq_refl eq_refl eq_refl eq_refl R) as [H1 H2].
  exists s', st. split; [reflexivity|]. split; [exact H1|exact H2].
Defined.

(** X17.  Unless Clear Events is pressed a run only appends to the log: the
    old log is a prefix of the new one, and at most four events are added
    (profile generated, roast started, an operator event, roast completed). *)
Theorem run_log_append_only gen w c s s' shown :
  App.clear_events_pressed w = false ->
  App.run gen w c s = inr (s', shown) ->
  exists added,
    App.events s' = App.events s ++ added /\ (List.length added <= 4)%nat.
Proof.
  intros Hc H. destruct (run_inversion _ _ _ _ _ _ H)
    as [s1 [s4 [s5 [H1 [H4 [H5 [-> _]]]]]]].
  assert (E1 : exists a1, App.events s1 = App.events s ++ a1
                          /\ (List.length a1 <= 1)%nat).
  { destruct (App.generate_profile_pressed w).
    - destruct (generate_profile_frame _ _ _ _ _ H1) as [_ [_ [_ [_ E]]]].
      eexists. split; [exact E|simpl; lia].
    - unfold Py.ret in H1. injection H1 as <-. exists [].
      rewrite app_nil_r. split; [reflexivity|simpl; lia]. }
  assert (E2 : exists a2,
             App.events (App.start_stage w c s1) = App.events s1 ++ a2
             /\ (List.length a2 <= 1)%nat).
  { destruct (start_stage_frame w c s1) as [_ [_ [E|[_ [_ E]]]]]; rewrite E.
    - exists []. rewrite app_nil_r. split; [reflexivity|simpl; lia].
    - eexists. split; [reflexivity|simpl; lia]. }
  assert (E3 : exists a3,
             App.events (App.add_event_stage w c (App.start_stage w c s1))
             = App.events (App.start_stage w c s1) ++ a3
             /\ (List.length a3 <= 1)%nat).
  { destruct (add_event_stage_frame w c (App.start_stage w c s1))
      as [_ [_ [_ [_ [E|E]]]]]; rewrite E.
    - exists []. rewrite app_nil_r. split; [reflexivity|simpl; lia].
    - eexists. split; [reflexivity|simpl; lia]. }
  assert (E4 : exists a4,
             App.events s4
             = App.events (App.add_event_stage w c (App.start_stage w c s1))
                 ++ a4
             /\ (List.length a4 <= 1)%nat).
  { destruct (end_stage_frame _ _ _ _ H4) as [_ [_ [_ [E|[_ [_ [E _]]]]]]].
    - rewrite E. exists []. rewrite app_nil_r. split; [reflexivity|simpl; lia].
    - unfold App.end_roast, Py.ret, Py.raise in E.
      destruct (App.start_time _); [|discriminate].
      injection E as <-. eexists. split; [reflexivity|simpl; lia]. }
  destruct (monitor_frame _ _ _ H5) as [_ [_ [_ [E5 _]]]].
  destruct E1 as [a1 [E1 L1]]. destruct E2 as [a2 [E2 L2]].
  destruct E3 as [a3 [E3 L3]]. destruct E4 as [a4 [E4 L4]].
  exists (a1 ++ a2 ++ a3 ++ a4). split.
  - unfold App.clear_events. rewrite Hc, andb_false_r.
    rewrite E5, E4, E3, E2, E1, <- !app_assoc. reflexivity.
  - rewrite !length_app. lia.
Qed.

Lemma run_log_append_only_witness :
  exists s' shown added,
    App.run Examples.generator (Examples.press true true false)
      (Examples.at_time Examples.minute) App.initial = inr (s', shown)
    /\ App.events s' = App.events App.initial ++ added
    /\ (List.length added <= 4)%nat.
Proof.
  destruct (App.run Examples.generator (Examples.press true true false)
              (Examples.at_time Examples.minute) App.initial)
    as [e|[s' shown]] eqn:R; [vm_compute in R; discriminate|].
  destruct (run_log_append_only Examples.generator
              (Examples.press true true false)
              (Examples.at_time Examples.minute) App.initial s' shown
              eq_refl R) as [added [H1 H2]].
  exists s', shown, added. split; [reflexivity|]. split; assumption.
Defined.

(** ** Generate, monitor and statistics together *)

(** X18.  Generate Roast Profile is never refused, also during a roast: when
    the generator returns a profile the handler stores it and leaves the
    roast flag, the start time and the trace alone, so a roast in progress
    goes on against the new profile.  When the generator raises, nothing
    catches it: the whole run raises the same exception. *)
Theorem generate_profile_any_state gen w c s :
  (forall profile,
      gen (App.bean_type w) (App.roast_level w) (inject_Z (App.charge_temp w))
        (inject_Z (App.development_time w)) = inr profile ->
      exists s1,
        App.generate_profile gen w (App.now_profile_event c) s = inr s1
        /\ App.roast_profile s1 = Some profile
        /\ App.roast_in_progress s1 = App.roast_in_progress s
        /\ App.start_time s1 = App.start_time s
        /\ App.roast_data s1 = App.roast_data s)
  /\ (forall e,
        gen (App.bean_type w) (App.roast_level w) (inject_Z (App.charge_temp w))
          (inject_Z (App.development_time w)) = inl e ->
        App.generate_profile_pressed w = true ->
        App.run gen w c s = inl e).
Proof.
  split.
  - intros profile Hgen. unfold App.generate_profile, Py.bind. rewrite Hgen.
    eexists. split; [reflexivity|]. repeat split.
  - intros e Hgen Hpressed. rewrite run_stages, Hpressed.
    unfold App.generate_profile, Py.bind. rewrite Hgen. reflexivity.
Qed.

Lemma generate_profile_any_state_witness :
  (exists s1,
      App.generate_profile Examples.generator Examples.idle_widgets 0
        Examples.roasting = inr s1
      /\ App.roast_in_progress s1 = true
      /\ App.start_time s1 = Some 0%Z)
  /\ App.run (fun _ _ _ _ => inl Py.TypeError) (Examples.press true false false)
       (Examples.at_time 0) Examples.roasting = inl Py.TypeError.
Proof.
  split.
  - destruct (Examples.generator "Arabica" Profile.Medium (inject_Z 190)
                (inject_Z 20)) as [e|profile] eqn:G;
      [vm_compute in G; discriminate|].
    destruct (generate_profile_any_state Examples.generator
                Examples.idle_widgets (Examples.at_time 0) Examples.roasting)
      as [H _].
    destruct (H profile G) as [s1 [H1 [_ [H2 [H3 _]]]]].
    exists s1. split; [exact H1|]. split; [exact H2|exact H3].
  - destruct (generate_profile_any_state (fun _ _ _ _ => inl Py.TypeError)
                (Examples.press true false false) (Examples.at_time 0)
                Examples.roasting) as [_ H].
    exact (H Py.TypeError eq_refl eq_refl).
Defined.

(** The row a run appends while the roast is in progress. *)
Lemma run_appended_row gen w c s s' shown :
  App.consistent s ->
  App.run gen w c s = inr (s', shown) ->
  App.roast_in_progress s' = true ->
  exists profile started temp,
    App.roast_profile s' = Some profile
    /\ App.start_time s' = Some started
    /\ App.current_temp (Profile.samples profile)
         (Py.total_minutes (App.now_monitor c - started)) = inr temp
    /\ App.roast_data s'
       = App.roast_data s
           ++ [{| App.Time := Py.total_minutes (App.now_monitor c - started);
                  App.Temperature := temp;
                  App.Event := "" |}].
Proof.
  intros Hs H Hrun. destruct (run_inversion _ _ _ _ _ _ H)
    as [s1 [s4 [s5 [H1 [H4 [H5 [-> _]]]]]]].
  pose proof (generate_stage_consistent _ _ _ _ _ H1 Hs) as C1.
  pose proof (end_stage_consistent _ _ _ _ H4
                (add_event_stage_consistent w c _
                   (start_stage_consistent w c _ C1))) as C4.
  destruct (generate_stage_frame _ _ _ _ _ H1) as [D1 _].
  destruct (start_stage_frame w c s1) as [D2 _].
  destruct (add_event_stage_frame w c (App.start_stage w c s1)) as [D3 _].
  destruct (end_stage_frame _ _ _ _ H4) as [D4 _].
  destruct (clear_events_frame w s5) as [D6 [R6 [T6 P6]]].
  destruct (monitor_frame _ _ _ H5) as [R5 [T5 [P5 [_ D5]]]].
  rewrite R6, R5 in Hrun. rewrite D6, T6, T5, P6, P5.
  destruct D5 as [[_ [Hoff|Hnone]]|D5].
  - congruence.
  - destruct C4 as [C4 _]. destruct (C4 Hrun) as [_ Hp]. congruence.
  - destruct D5 as [p [t0 [temp [_ [Hp [Ht [Hc D5]]]]]]].
    exists p, t0, temp. rewrite D5, D4, D3, D2, D1. repeat split; assumption.
Qed.

(** X19.  During a roast the statistics block is always drawn, and its
    current temperature is the one the monitoring block read in the same
    run: the lookup into the profile at the clock of that block minus the
    start time. *)
Theorem run_shows_monitored_temperature gen w c s s' shown :
  App.consistent s ->
  App.run gen w c s = inr (s', shown) ->
  App.roast_in_progress s' = true ->
  exists st profile started,
    shown = Some st
    /\ App.roast_profile s' = Some profile
    /\ App.start_time s' = Some started
    /\ App.current_temp (Profile.samples profile)
         (Py.total_minutes (App.now_monitor c - started))
       = inr (App.latest_temp st).
Proof.
  intros Hs H Hrun.
  destruct (run_appended_row _ _ _ _ _ _ Hs H Hrun)
    as [profile [started [temp [Hp [Ht [Hc Hrows]]]]]].
  destruct (run_inversion _ _ _ _ _ _ H)
    as [s1 [s4 [s5 [_ [_ [_ [Hs' Hshown]]]]]]].
  destruct (roast_statistics_inversion _ _ _ Hshown)
    as [[Hempty _]|[_ [st [-> [Hlatest _]]]]].
  - rewrite Hrows in Hempty. destruct (App.roast_data s); discriminate.
  - exists st, profile, started. split; [reflexivity|].
    split; [exact Hp|]. split; [exact Ht|].
    rewrite Hlatest, Hrows, map_app. simpl (map _ [_]).
    rewrite last_last. exact Hc.
Qed.

Lemma run_shows_monitored_temperature_witness :
  exists s' st,
    App.run Examples.generator Examples.idle_widgets
      (Examples.at_time (3 * Examples.minute)) Examples.roasting
    = inr (s', Some st)
    /\ App.current_temp Examples.half_minute_table
         (Py.total_minutes (3 * Examples.minute - 0))
       = inr (App.latest_temp st).
Proof.
  destruct (App.run Examples.generator Examples.idle_widgets
              (Examples.at_time (3 * Examples.minute)) Examples.roasting)
    as [e|[s' shown]] eqn:R; [vm_compute in R; discriminate|].
  assert (Hrun : App.roast_in_progress s' = true).
  { vm_compute in R. injection R as <- _. reflexivity. }
  destruct (run_shows_monitored_temperature Examples.generator
              Examples.idle_widgets (Examples.at_time (3 * Examples.minute))
              Examples.roasting s' shown roasting_consistent R Hrun)
    as [st [profile [started [-> [Hp [Ht Hc]]]]]].
  exists s', st. split; [reflexivity|].
  assert (Hp' : App.roast_profile s'
                = Some (Examples.profile_of Examples.half_minute_table)).
  { vm_compute in R. injection R as <- _. reflexivity. }
  assert (Ht' : App.start_time s' = Some 0%Z).
  { vm_compute in R. injection R as <- _. reflexivity. }
  rewrite Hp' in Hp. injection Hp as <-.
  rewrite Ht' in Ht. injection Ht as <-. exact Hc.
Defined.

(** ** Tips *)

(** X21.  Every level of the slider has a tip once a profile exists: Light
    and Medium their own, Dark, French and Italian the dark-roast one.  The
    tip follows the slider, not the level the stored profile was generated
    for, and without a profile nothing is drawn. *)
Theorem recommendation_spec (w : App.widgets) (s : App.state) :
  (App.roast_profile s = None -> App.recommendation w s = None)
  /\ (App.roast_profile s <> None ->
      App.recommendation w s
      = Some (match App.roast_level w with
              | Profile.Light => App.LightRoastTips
              | Profile.Medium => App.MediumRoastTips
              | Profile.Dark | Profile.French | Profile.Italian =>
                  App.DarkRoastTips
              end)).
Proof.
  unfold App.recommendation. split.
  - intros ->. reflexivity.
  - intros Hp. destruct (App.roast_profile s); [|congruence].
    destruct (App.roast_level w); reflexivity.
Qed.

Lemma recommendation_spec_witness :
  App.recommendation Examples.idle_widgets Examples.ready
  = Some App.MediumRoastTips.
Proof.
  destruct (recommendation_spec Examples.idle_widgets Examples.ready) as [_ H].
  apply H. discriminate.
Defined.
